(** * The schema-adaptive KPI view builder of [dags/ETL_theLook_Postgres.py]

    A shallow embedding of the helpers [_identifier] and [table_columns] and
    of the Airflow task [build_kpi_views], together with a small model of
    the PostgreSQL cursor they talk to.  Python [str] values are Rocq
    strings, Python sets of column names are [gset string], the cursor is
    threaded through an exception-and-state monad, and the body of a task
    is one transaction: psycopg2 (2.9 and later) opens one for the
    statements of a [with connection] block, commits it when the block is
    left normally and rolls it back when an exception leaves it. *)

From Stdlib Require Import Ascii String.
From stdpp Require Import gmap strings list.

Local Open Scope string_scope.

(** * Python string primitives used by the task *)

Module PyStr.

(** [s.replace(old, new)] for a non-empty [old]: scan left to right, on a
    match emit [new] and skip the rest of the matched occurrence. *)
Fixpoint replace_from (old new : string) (skip : nat) (s : string) : string :=
  match s with
  | "" => ""
  | String c s' =>
      match skip with
      | S k => replace_from old new k s'
      | O =>
          if String.prefix old s
          then new +:+ replace_from old new (String.length old - 1) s'
          else String c (replace_from old new 0 s')
      end
  end.

(** With an empty [old] Python inserts [new] before every character and
    at the end. *)
Fixpoint intersperse_after (new s : string) : string :=
  match s with
  | "" => ""
  | String c s' => String c (new +:+ intersperse_after new s')
  end.

Definition replace (old new s : string) : string :=
  match old with
  | "" => new +:+ intersperse_after new s
  | _ => replace_from old new 0 s
  end.

(** [sub in s] on strings: substring test. *)
Fixpoint contains (sub s : string) : bool :=
  String.prefix sub s ||
  match s with
  | "" => false
  | String _ s' => contains sub s'
  end.

(** Number of (possibly overlapping) occurrences of [sub] in [s]. *)
Fixpoint occurrences (sub s : string) : nat :=
  match s with
  | "" => 0
  | String _ s' =>
      (if String.prefix sub s then 1 else 0) + occurrences sub s'
  end.

(** Keyword arguments are an association list; the first binding of a
    name is the one that counts. *)
Fixpoint kwarg (name : string) (kwargs : list (string * string)) : option string :=
  match kwargs with
  | [] => None
  | (k, v) :: rest => if String.eqb k name then Some v else kwarg name rest
  end.

(** [template.format] with keyword arguments [kwargs], for templates
    whose replacement fields are plain [{name}] (the only form the task uses: no [{{] escapes, no
    conversions, no format specs).  [field] is the name being read after
    an opening brace.  [None] stands for the [KeyError]/[ValueError] that
    Python raises on an unknown name or an unbalanced brace. *)
Fixpoint format_from (kwargs : list (string * string)) (field : option string)
    (t : string) : option string :=
  match t with
  | "" => match field with None => Some "" | Some _ => None end
  | String c t' =>
      match field with
      | None =>
          if Ascii.eqb c "{"%char then format_from kwargs (Some "") t'
          else if Ascii.eqb c "}"%char then None
          else String c <$> format_from kwargs None t'
      | Some name =>
          if Ascii.eqb c "}"%char then
            match kwarg name kwargs with
            | Some v => (String.append v) <$> format_from kwargs None t'
            | None => None
            end
          else format_from kwargs (Some (name +:+ String c "")) t'
      end
  end.

Definition format (t : string) (kwargs : list (string * string)) : option string :=
  format_from kwargs None t.

End PyStr.

(** * Identifier quoting *)

Definition dquote : string := String (Ascii.ascii_of_nat 34) "".

(** [_identifier(name)]: a double quote, then [name] with every double quote
    replaced by two of them, then a double quote. *)
Definition _identifier (name : string) : string :=
  dquote +:+ PyStr.replace dquote (dquote +:+ dquote) name +:+ dquote.

(** * The backing store

    PostgreSQL is an external collaborator; this is the part of its
    behaviour the task relies on.  The catalog relation lists the columns
    of the raw tables, one row (schema, table, column) each, as
    [information_schema.columns] does; [tables] records which tables exist
    (a table may exist without any row in the column relation).  [views]
    maps a schema-qualified view name to its defining query.  The schemas
    [raw] and [analytics] are taken to exist: the bootstrap task makes
    them.  [rejects] stands for everything else that makes the server
    refuse a statement (a cast it cannot plan, a missing privilege, a
    dependent view). *)

Record store := Store {
  tables : gset (string * string);
  columns : list (string * string * string);
  views : gmap string string;
  rejects : string -> bool
}.

(** Every catalogued column belongs to a table that exists. *)
Definition catalog_wf (st : store) : Prop :=
  forall schema table column,
    (schema, table, column) ∈ columns st -> (schema, table) ∈ tables st.

Definition row := list string.

(** The text [table_columns] sends, with its two [%s] parameters. *)
Definition COLUMNS_QUERY : string :=
"
        SELECT column_name
        FROM information_schema.columns
        WHERE table_schema = %s AND table_name = %s
        ".

(** The column a catalog row contributes to a query on [(schema, table)]. *)
Definition column_name_of (schema table : string) (r : string * string * string)
    : option string :=
  let '(s, t, c) := r in
  if String.eqb s schema && String.eqb t table then Some c else None.

(** Answer of the catalog to [COLUMNS_QUERY] bound to [(schema, table)]:
    one single-column row per matching catalog row. *)
Definition select_columns (st : store) (schema table : string) : list row :=
  omap (fun r => (fun c => [c]) <$> column_name_of schema table r) (columns st).

(** ** View DDL as the server reads it *)

Inductive ddl :=
| DropViewIfExists (name : string)
| CreateView (name body : string).

Module Sql.

Definition is_space (c : ascii) : bool :=
  Ascii.eqb c " "%char || Ascii.eqb c (ascii_of_nat 10)
  || Ascii.eqb c (ascii_of_nat 9) || Ascii.eqb c (ascii_of_nat 13).

Fixpoint lstrip (s : string) : string :=
  match s with
  | String c s' => if is_space c then lstrip s' else s
  | "" => ""
  end.

Fixpoint rstrip (s : string) : string :=
  match s with
  | "" => ""
  | String c s' =>
      let r := rstrip s' in
      if is_space c && String.eqb r "" then "" else String c r
  end.

Definition strip (s : string) : string := rstrip (lstrip s).

(** Cut a script at every semicolon. *)
Fixpoint split_statements (s : string) : list string :=
  match s with
  | "" => [""]
  | String c s' =>
      if Ascii.eqb c ";"%char then "" :: split_statements s'
      else match split_statements s' with
           | [] => [String c ""]
           | piece :: rest => String c piece :: rest
           end
  end.

(** The leading word of [s] and what follows it. *)
Fixpoint word (s : string) : string * string :=
  match s with
  | "" => ("", "")
  | String c s' =>
      if is_space c then ("", s)
      else let '(w, r) := word s' in (String c w, r)
  end.

Definition drop_prefix (p s : string) : option string :=
  if String.prefix p s
  then Some (String.substring (String.length p) (String.length s - String.length p) s)
  else None.

Definition parse_statement (s : string) : option ddl :=
  match drop_prefix "DROP VIEW IF EXISTS " s with
  | Some name => Some (DropViewIfExists (strip name))
  | None =>
      match drop_prefix "CREATE VIEW " s with
      | Some r =>
          let '(name, r') := word (lstrip r) in
          let '(kw, body) := word (lstrip r') in
          if String.eqb kw "AS" && negb (String.eqb name "")
          then Some (CreateView name (strip body))
          else None
      | None => None
      end
  end.

(** A script is a sequence of statements; blank pieces are skipped. *)
Definition parse_script (s : string) : option (list ddl) :=
  mapM parse_statement
    (filter (fun piece => piece <> "") (strip <$> split_statements s)).

End Sql.

(** ** Name resolution in a defining query

    What the server checks before it stores a view, for queries of the kind
    this program writes (unquoted names, no string constants, no nested
    query): every table of the FROM clause exists, and every column
    written [qualifier.column] is a catalogued column of the table that
    [qualifier] stands for.  Unquoted names are read in lower case. *)

Module Query.

Inductive token :=
| Name (s : string)
| Sign (c : ascii).

(** Letters, digits, the underscore and the dollar sign. *)
Definition is_name_char (c : ascii) : bool :=
  let n := nat_of_ascii c in
  (Nat.leb 97 n && Nat.leb n 122) || (Nat.leb 65 n && Nat.leb n 90)
  || (Nat.leb 48 n && Nat.leb n 57) || Nat.eqb n 95 || Nat.eqb n 36.

Definition is_digit (c : ascii) : bool :=
  let n := nat_of_ascii c in Nat.leb 48 n && Nat.leb n 57.

Definition downcase (c : ascii) : ascii :=
  let n := nat_of_ascii c in
  if Nat.leb 65 n && Nat.leb n 90 then ascii_of_nat (n + 32) else c.

Definition starts_name (s : string) : bool :=
  match s with
  | String c _ => is_name_char c
  | "" => false
  end.

(** Names and numbers are maximal runs of name characters; white space
    separates; any other character stands for itself. *)
Fixpoint lex (s : string) : list token :=
  match s with
  | "" => []
  | String c s' =>
      if is_name_char c then
        match lex s' with
        | Name w :: ts =>
            if starts_name s' then Name (String (downcase c) w) :: ts
            else Name (String (downcase c) "") :: Name w :: ts
        | ts => Name (String (downcase c) "") :: ts
        end
      else if Sql.is_space c then lex s'
      else Sign c :: lex s'
  end.

Definition is_dot (c : ascii) : bool := Ascii.eqb c "."%char.

(** The words after which a table is named. *)
Definition introduces_table (t : token) : bool :=
  match t with
  | Name w => String.eqb w "from" || String.eqb w "join"
  | Sign _ => false
  end.

(** Words that end a FROM item instead of naming it. *)
Definition reserved (w : string) : bool :=
  existsb (String.eqb w)
    ["join"; "inner"; "left"; "right"; "full"; "cross"; "natural"; "on"; "using";
     "where"; "group"; "having"; "window"; "order"; "limit"; "offset"; "fetch";
     "union"; "intersect"; "except"; "for"].

(** The name a FROM item goes by: what follows AS, or the next word when it
    is not reserved, or else the table name. *)
Definition alias_of (table : string) (rest : list token) : string :=
  match rest with
  | Name w :: Name a :: _ =>
      if String.eqb w "as" then a else if reserved w then table else w
  | Name w :: _ => if String.eqb w "as" || reserved w then table else w
  | _ => table
  end.

(** The FROM items [schema.table alias] of a query. *)
Fixpoint from_items (ts : list token) : list (string * string * string) :=
  match ts with
  | [] => []
  | t :: ts' =>
      match ts' with
      | Name schema :: Sign d :: Name table :: rest =>
          if introduces_table t && is_dot d
          then (schema, table, alias_of table rest) :: from_items ts'
          else from_items ts'
      | _ => from_items ts'
      end
  end.

(** The columns written [qualifier.column], where [prev] is the token
    before [ts]; the table names of the FROM clause are not columns. *)
Fixpoint references (prev : token) (ts : list token) : list (string * string) :=
  match ts with
  | [] => []
  | t :: ts' =>
      match t, ts' with
      | Name q, Sign d :: Name c :: _ =>
          if is_dot d && negb (introduces_table prev)
             && match prev with Sign p => negb (is_dot p) | Name _ => true end
             && match q with String a _ => negb (is_digit a) | "" => false end
          then (q, c) :: references t ts'
          else references t ts'
      | _, _ => references t ts'
      end
  end.

(** The table a qualifier stands for. *)
Fixpoint table_named (q : string) (items : list (string * string * string))
    : option (string * string) :=
  match items with
  | [] => None
  | (schema, table, a) :: rest =>
      if String.eqb a q then Some (schema, table) else table_named q rest
  end.

(** The tables a query reads. *)
Definition required_tables (body : string) : list (string * string) :=
  (fun '(schema, table, _) => (schema, table)) <$> from_items (lex body).

(** The catalog rows a query needs, unless some qualifier stands for no
    table of its FROM clause. *)
Definition required_columns (body : string) : option (list (string * string * string)) :=
  let ts := lex body in
  mapM (fun '(q, c) =>
          (fun '(schema, table) => (schema, table, c)) <$> table_named q (from_items ts))
    (references (Sign " "%char) ts).

End Query.

(** The server can resolve every name of the query [body], given the
    tables that exist and the catalogued columns. *)
Definition resolves (tabs : gset (string * string)) (cols : list (string * string * string))
    (body : string) : bool :=
  match Query.required_columns body with
  | Some needed =>
      forallb (fun t => bool_decide (t ∈ tabs)) (Query.required_tables body)
      && forallb (fun r => bool_decide (r ∈ cols)) needed
  | None => false
  end.

(** Dropping a view that is not there is no error; creating one that is
    there is, and so is creating one whose query does not resolve. *)
Definition apply_ddl (st : store) (vs : gmap string string) (d : ddl)
    : option (gmap string string) :=
  match d with
  | DropViewIfExists name => Some (delete name vs)
  | CreateView name body =>
      match vs !! name with
      | Some _ => None
      | None =>
          if resolves (tables st) (columns st) body then Some (<[name := body]> vs)
          else None
      end
  end.

Fixpoint apply_script (st : store) (ds : list ddl) (vs : gmap string string)
    : option (gmap string string) :=
  match ds with
  | [] => Some vs
  | d :: ds' =>
      match apply_ddl st vs d with
      | Some vs' => apply_script st ds' vs'
      | None => None
      end
  end.

Definition with_views (st : store) (vs : gmap string string) : store :=
  {| tables := tables st; columns := columns st; views := vs; rejects := rejects st |}.

(** One [execute] call.  The catalog query is answered from the column
    relation and changes nothing.  Any other text is a DDL script: its
    statements are applied in order, and the first one the server refuses
    fails the call (what the statements before it did is undone with the
    transaction, see [with_connection]). *)
Definition answer (st : store) (sql : string) (params : list string)
    : option (store * list row) :=
  if String.eqb sql COLUMNS_QUERY then
    match params with
    | [schema; table] => Some (st, select_columns st schema table)
    | _ => None
    end
  else if rejects st sql then None
  else
    match Sql.parse_script sql with
    | Some ds =>
        match apply_script st ds (views st) with
        | Some vs => Some (with_views st vs, [])
        | None => None
        end
    | None => None
    end.

(** * The cursor monad

    A psycopg2 cursor inside a [with connection] block: the store as the
    open transaction sees it, the rows of the last result, and the texts
    handed to [execute] so far.  A computation either returns a value or
    raises. *)

Inductive exn :=
| DatabaseError (sql : string)
| KeyError
| IndexError.

Inductive outcome (A : Type) :=
| Returned (a : A)
| Raised (e : exn).
Arguments Returned {A} a.
Arguments Raised {A} e.

Record cursor := Cursor {
  db : store;
  fetched : list row;
  trace : list string
}.

Definition M (A : Type) : Type := cursor -> outcome A * cursor.

Definition ret {A} (a : A) : M A := fun c => (Returned a, c).

Definition bind {A B} (m : M A) (k : A -> M B) : M B :=
  fun c =>
    match m c with
    | (Returned a, c') => k a c'
    | (Raised e, c') => (Raised e, c')
    end.

Definition raise {A} (e : exn) : M A := fun c => (Raised e, c).

Notation "'let*' x ':=' m 'in' k" := (bind m (fun x => k))
  (at level 10, x name, m at level 100, k at level 200, only parsing).
Notation "'run*' m 'in' k" := (bind m (fun _ => k))
  (at level 10, m at level 100, k at level 200, only parsing).

(** [cur.execute(sql, params)] *)
Definition execute (sql : string) (params : list string) : M unit :=
  fun c =>
    let logged := (trace c ++ [sql])%list in
    match answer (db c) sql params with
    | Some (st, rs) => (Returned tt, {| db := st; fetched := rs; trace := logged |})
    | None => (Raised (DatabaseError sql),
               {| db := db c; fetched := fetched c; trace := logged |})
    end.

(** [cur.fetchall()] hands over the pending rows. *)
Definition fetchall : M (list row) :=
  fun c => (Returned (fetched c),
            {| db := db c; fetched := []; trace := trace c |}).

(** [r[0]] on a result row. *)
Definition item0 (r : row) : M string :=
  match r !! 0%nat with
  | Some v => ret v
  | None => raise IndexError
  end.

Fixpoint for_each {A B} (f : A -> M B) (l : list A) : M (list B) :=
  match l with
  | [] => ret []
  | a :: l' => let* b := f a in let* bs := for_each f l' in ret (b :: bs)
  end.

(** * The schema inspector *)

Definition table_columns (schema table : string) : M (gset string) :=
  run* execute COLUMNS_QUERY [schema; table] in
  let* rs := fetchall in
  let* names := for_each item0 rs in
  ret (list_to_set names).

(** * The view synthesizer *)

Definition KPI_DAILY_ORDER_ITEMS_TEMPLATE : string :=
"
                        DROP VIEW IF EXISTS analytics.kpi_daily;
                        CREATE VIEW analytics.kpi_daily AS
                        SELECT
                            {date_expr} AS order_date,
                            {orders_expr} AS orders,
                            {items_expr} AS items,
                            {revenue_expr} AS revenue,
                            CASE WHEN {orders_expr} > 0 THEN {revenue_expr} / {orders_expr} ELSE NULL END AS aov
                        FROM raw.order_items AS order_items
                        GROUP BY 1
                        ORDER BY 1;
                    ".

Definition KPI_DAILY_ORDERS_TEMPLATE : string :=
"
                        DROP VIEW IF EXISTS analytics.kpi_daily;
                        CREATE VIEW analytics.kpi_daily AS
                        SELECT
                            {date_expr} AS order_date,
                            COUNT(*) AS orders
                        FROM raw.orders AS orders
                        GROUP BY 1
                        ORDER BY 1;
                    ".

Definition CATEGORY_DAILY_SQL : string :=
"
                        DROP VIEW IF EXISTS analytics.category_daily;
                        CREATE VIEW analytics.category_daily AS
                        SELECT
                            DATE(oi.created_at::timestamp) AS order_date,
                            p.category AS category,
                            COUNT(*) AS items,
                            SUM(COALESCE(oi.sale_price::numeric, 0)) AS revenue
                        FROM raw.order_items oi
                        JOIN raw.products p ON p.id = oi.product_id
                        GROUP BY 1,2
                        ORDER BY 1,2;
                    ".

Definition DROP_KPI_DAILY : string := "DROP VIEW IF EXISTS analytics.kpi_daily;".
Definition DROP_CATEGORY_DAILY : string := "DROP VIEW IF EXISTS analytics.category_daily;".

Definition SKIPPED : string := "No created_at column found; skipped KPI views.".
Definition CREATED : string :=
  "Views created: analytics.kpi_daily (and analytics.category_daily if columns exist).".

Definition DATE_ORDER_ITEMS : string := "DATE(order_items.created_at::timestamp)".
Definition DATE_ORDERS : string := "DATE(orders.created_at::timestamp)".
Definition SUM_SALE_PRICE : string := "SUM(COALESCE(order_items.sale_price::numeric, 0))".
Definition COUNT_NUMERIC : string := "COUNT(*)::numeric".
Definition COUNT_DISTINCT_ORDER : string := "COUNT(DISTINCT order_items.order_id)".
Definition COUNT_ROWS : string := "COUNT(*)".

(** [template.format(...)] inside the cursor monad. *)
Definition format (t : string) (kwargs : list (string * string)) : M string :=
  match PyStr.format t kwargs with
  | Some sql => ret sql
  | None => raise KeyError
  end.

(** [x in cols] *)
Definition has (x : string) (cols : gset string) : bool := bool_decide (x ∈ cols).

(** The three metric expressions, resolved from the columns of
    [order_items]. *)
Definition revenue_expr (oi_cols : gset string) : string :=
  if has "sale_price" oi_cols then SUM_SALE_PRICE else COUNT_NUMERIC.

Definition orders_expr (oi_cols : gset string) : string :=
  if has "order_id" oi_cols then COUNT_DISTINCT_ORDER else COUNT_ROWS.

Definition items_expr : string := COUNT_ROWS.

(** The statements of [build_kpi_views] that follow the choice of
    [date_expr] and [from_sql], shared by the two branches that pick a date
    column. *)
Definition create_views (date_expr from_sql : string) (oi_cols p_cols : gset string)
    : M string :=
  run* (if PyStr.contains "order_items" from_sql then
          let* sql := format KPI_DAILY_ORDER_ITEMS_TEMPLATE
                        [("date_expr", date_expr); ("orders_expr", orders_expr oi_cols);
                         ("items_expr", items_expr); ("revenue_expr", revenue_expr oi_cols)] in
          execute sql []
        else
          let* sql := format KPI_DAILY_ORDERS_TEMPLATE [("date_expr", date_expr)] in
          execute sql []) in
  run* (if has "product_id" oi_cols && has "id" p_cols && has "category" p_cols
           && has "sale_price" oi_cols
        then execute CATEGORY_DAILY_SQL []
        else execute DROP_CATEGORY_DAILY []) in
  ret CREATED.

(** The statements of the task [build_kpi_views], inside its two [with]
    blocks. *)
Definition build_kpi_views : M string :=
  let* oi_cols := (if true then table_columns "raw" "order_items" else ret ∅) in
  let* o_cols := (if true then table_columns "raw" "orders" else ret ∅) in
  let* p_cols := (if true then table_columns "raw" "products" else ret ∅) in
  if has "created_at" oi_cols then
    create_views DATE_ORDER_ITEMS "raw.order_items AS order_items" oi_cols p_cols
  else if has "created_at" o_cols then
    create_views DATE_ORDERS "raw.orders AS orders" oi_cols p_cols
  else
    run* execute DROP_KPI_DAILY [] in
    run* execute DROP_CATEGORY_DAILY [] in
    ret SKIPPED.

(** A fresh cursor on the store (the connection itself is taken to
    succeed). *)
Definition connect (st : store) : cursor :=
  {| db := st; fetched := []; trace := [] |}.

(** [with pg_connect(ANALYTICS_DB) as conn: conn.autocommit = True;
    with conn.cursor() as cur: body].  Since psycopg2 2.9 the statements of
    a [with connection] block run in one transaction also when autocommit
    is set: leaving the block normally commits it, an exception leaving the
    block rolls it back, and the store is then as it was when the block was
    entered.  The log of submitted texts is kept either way. *)
Definition with_connection {A} (body : M A) (st : store) : outcome A * cursor :=
  match body (connect st) with
  | (Returned a, c) => (Returned a, c)
  | (Raised e, c) => (Raised e, {| db := st; fetched := fetched c; trace := trace c |})
  end.

(** The task [build_kpi_views] run on a store. *)
Definition run (st : store) : outcome string * cursor :=
  with_connection build_kpi_views st.

(** * Derived notions used by the statements below *)

(** ** Delimited identifiers as the server reads them

    The SQL lexical rule: a double quote, a non-empty body in which a
    doubled double quote stands for one, a closing double quote.  The result
    is the identifier denoted and the unread rest of the input. *)

Module SqlLex.

Definition is_dquote (c : ascii) : bool := Ascii.eqb c (ascii_of_nat 34).

Fixpoint body (s : string) : option (string * string) :=
  match s with
  | "" => None
  | String c s' =>
      if is_dquote c then
        match s' with
        | String c' s'' =>
            if is_dquote c'
            then (fun '(n, r) => (String c n, r)) <$> body s''
            else Some ("", s')
        | "" => Some ("", "")
        end
      else (fun '(n, r) => (String c n, r)) <$> body s'
  end.

Definition delimited_identifier (s : string) : option (string * string) :=
  match s with
  | String c s' =>
      if is_dquote c then
        match body s' with
        | Some ("", _) => None
        | r => r
        end
      else None
  | "" => None
  end.

(** The next character of [s], if any, is not a double quote. *)
Definition no_leading_dquote (s : string) : Prop :=
  match s with
  | String c _ => is_dquote c = false
  | "" => True
  end.

End SqlLex.

(** ** The generated texts, cut at the replacement fields *)

(** The aov column of the order_items-based view. *)
Definition aov_sql (orders revenue : string) : string :=
  "CASE WHEN " +:+ orders +:+ " > 0 THEN " +:+ revenue +:+ " / " +:+ orders
  +:+ " ELSE NULL END".

Definition KPI_DAILY_HEAD : string :=
"
                        DROP VIEW IF EXISTS analytics.kpi_daily;
                        CREATE VIEW analytics.kpi_daily AS
                        SELECT
                            ".

Definition SELECT_SEP : string :=
",
                            ".

Definition KPI_DAILY_ORDER_ITEMS_TAIL : string :=
"
                        FROM raw.order_items AS order_items
                        GROUP BY 1
                        ORDER BY 1;
                    ".

Definition KPI_DAILY_ORDERS_TAIL : string :=
"
                        FROM raw.orders AS orders
                        GROUP BY 1
                        ORDER BY 1;
                    ".

Definition kpi_daily_order_items_sql (date orders items revenue : string) : string :=
  KPI_DAILY_HEAD
  +:+ date +:+ " AS order_date" +:+ SELECT_SEP
  +:+ orders +:+ " AS orders" +:+ SELECT_SEP
  +:+ items +:+ " AS items" +:+ SELECT_SEP
  +:+ revenue +:+ " AS revenue" +:+ SELECT_SEP
  +:+ aov_sql orders revenue +:+ " AS aov"
  +:+ KPI_DAILY_ORDER_ITEMS_TAIL.

Definition kpi_daily_orders_sql (date : string) : string :=
  KPI_DAILY_HEAD
  +:+ date +:+ " AS order_date" +:+ SELECT_SEP
  +:+ "COUNT(*) AS orders"
  +:+ KPI_DAILY_ORDERS_TAIL.

(** ** What a run reads and submits, as functions of the store *)

Definition KPI_DAILY : string := "analytics.kpi_daily".
Definition CATEGORY_DAILY : string := "analytics.category_daily".

(** The column names the catalog records for a table. *)
Definition recorded (st : store) (schema table : string) : gset string :=
  list_to_set (omap (column_name_of schema table) (columns st)).

Definition oi_of (st : store) : gset string := recorded st "raw" "order_items".
Definition o_of (st : store) : gset string := recorded st "raw" "orders".
Definition p_of (st : store) : gset string := recorded st "raw" "products".

(** Some date column is available. *)
Definition dated (oi o : gset string) : bool :=
  has "created_at" oi || has "created_at" o.

(** The guard of the category_daily branch. *)
Definition category_columns (oi p : gset string) : bool :=
  has "product_id" oi && has "id" p && has "category" p && has "sale_price" oi.

Definition kpi_daily_statement (oi o : gset string) : string :=
  if has "created_at" oi then
    kpi_daily_order_items_sql DATE_ORDER_ITEMS (orders_expr oi) items_expr (revenue_expr oi)
  else if has "created_at" o then kpi_daily_orders_sql DATE_ORDERS
  else DROP_KPI_DAILY.

Definition category_daily_statement (oi o p : gset string) : string :=
  if dated oi o && category_columns oi p then CATEGORY_DAILY_SQL
  else DROP_CATEGORY_DAILY.

Definition message (oi o : gset string) : string :=
  if dated oi o then CREATED else SKIPPED.

(** The defining query a script installs, if it creates a view. *)
Definition view_body (script : string) : option string :=
  match Sql.parse_script script with
  | Some [DropViewIfExists _; CreateView _ b] => Some b
  | _ => None
  end.

(** The script creates a view whose query the server cannot resolve. *)
Definition unresolved (st : store) (script : string) : bool :=
  match view_body script with
  | Some b => negb (resolves (tables st) (columns st) b)
  | None => false
  end.

(** The server refuses a drop-and-create script: for a reason of its own,
    or because the query does not resolve. *)
Definition refuses (st : store) (script : string) : bool :=
  rejects st script || unresolved st script.

(** Dropping a view and, when there is a body, creating it anew. *)
Definition replace_view (name : string) (body : option string)
    (vs : gmap string string) : gmap string string :=
  match body with
  | Some b => <[name := b]> (delete name vs)
  | None => delete name vs
  end.

(** The cursor a run holds after its three catalog queries. *)
Definition inspected (st : store) : cursor :=
  {| db := st; fetched := []; trace := [COLUMNS_QUERY; COLUMNS_QUERY; COLUMNS_QUERY] |}.

(** The texts of a trace that are not catalog queries. *)
Definition generated (c : cursor) : list string :=
  filter (fun sql => sql <> COLUMNS_QUERY) (trace c).

(** ** A reading of the aov expression

    Aggregates are looked up in an environment; a comparison yields 1 or 0;
    [CASE WHEN c THEN t ELSE NULL END] evaluates [t] only when [c] holds;
    dividing by zero is an error. *)

Inductive expr :=
| Agg (text : string)
| Zero
| Gt (a b : expr)
| Div (a b : expr)
| CaseWhen (c t : expr).

Inductive value :=
| Num (z : Z)
| Null
| DivisionByZero.

Fixpoint render (e : expr) : string :=
  match e with
  | Agg text => text
  | Zero => "0"
  | Gt a b => render a +:+ " > " +:+ render b
  | Div a b => render a +:+ " / " +:+ render b
  | CaseWhen c t => "CASE WHEN " +:+ render c +:+ " THEN " +:+ render t +:+ " ELSE NULL END"
  end.

Fixpoint eval (env : string -> Z) (e : expr) : value :=
  match e with
  | Agg text => Num (env text)
  | Zero => Num 0
  | Gt a b =>
      match eval env a, eval env b with
      | Num x, Num y => Num (if Z.ltb y x then 1 else 0)
      | DivisionByZero, _ | _, DivisionByZero => DivisionByZero
      | _, _ => Null
      end
  | Div a b =>
      match eval env a, eval env b with
      | Num x, Num y => if Z.eqb y 0 then DivisionByZero else Num (Z.div x y)
      | DivisionByZero, _ | _, DivisionByZero => DivisionByZero
      | _, _ => Null
      end
  | CaseWhen c t =>
      match eval env c with
      | Num 0 | Null => Null
      | Num _ => eval env t
      | DivisionByZero => DivisionByZero
      end
  end.

Definition aov_expr (orders revenue : string) : expr :=
  CaseWhen (Gt (Agg orders) Zero) (Div (Agg revenue) (Agg orders)).

(** [name] with every double quote written twice, character by character. *)
Fixpoint doubled (name : string) : string :=
  match name with
  | "" => ""
  | String c s =>
      if SqlLex.is_dquote c then String c (String c (doubled s))
      else String c (doubled s)
  end.

(** ** Stores used as examples *)

Definition raw_columns (table : string) (names : list string)
    : list (string * string * string) :=
  (fun c => ("raw", table, c)) <$> names.

Definition accept_all : string -> bool := fun _ => false.

(** Everything the views can use is there. *)
Definition full_store : store :=
  {| tables := list_to_set [("raw", "order_items"); ("raw", "products")];
     columns :=
       (raw_columns "order_items" ["id"; "order_id"; "product_id"; "sale_price"; "created_at"]
        ++ raw_columns "products" ["id"; "category"])%list;
     views := ∅;
     rejects := accept_all |}.

(** No timestamp anywhere; [raw.orders] is missing, and views of an earlier
    run are still in place. *)
Definition undated_store : store :=
  {| tables := list_to_set [("raw", "order_items")];
     columns := raw_columns "order_items" ["id"; "order_id"];
     views := <[KPI_DAILY := "SELECT 1"]> (<[CATEGORY_DAILY := "SELECT 2"]> ∅);
     rejects := accept_all |}.

(** No [sale_price] and no products table. *)
Definition unpriced_store : store :=
  {| tables := list_to_set [("raw", "order_items")];
     columns := raw_columns "order_items" ["id"; "order_id"; "product_id"; "created_at"];
     views := ∅;
     rejects := accept_all |}.

(** [created_at] only in [raw.orders], a price in [raw.order_items], no
    products. *)
Definition orders_priced_store : store :=
  {| tables := list_to_set [("raw", "order_items"); ("raw", "orders")];
     columns :=
       (raw_columns "order_items" ["id"; "order_id"; "sale_price"]
        ++ raw_columns "orders" ["order_id"; "created_at"])%list;
     views := ∅;
     rejects := accept_all |}.

(** [created_at] only in [raw.orders], and every column the category
    test asks for. *)
Definition orders_dated_store : store :=
  {| tables := list_to_set [("raw", "order_items"); ("raw", "orders"); ("raw", "products")];
     columns :=
       (raw_columns "order_items" ["id"; "order_id"; "product_id"; "sale_price"]
        ++ raw_columns "orders" ["order_id"; "created_at"]
        ++ raw_columns "products" ["id"; "category"])%list;
     views := ∅;
     rejects := accept_all |}.

(** As [full_store], but the server refuses to create [kpi_daily], and a
    [category_daily] of an earlier run is in place. *)
Definition kpi_refusing_store : store :=
  {| tables := tables full_store;
     columns := columns full_store;
     views := <[CATEGORY_DAILY := "SELECT 2"]> ∅;
     rejects := PyStr.contains "CREATE VIEW analytics.kpi_daily" |}.

(** As [full_store], but the server refuses to create [category_daily]. *)
Definition category_refusing_store : store :=
  {| tables := tables full_store;
     columns := columns full_store;
     views := ∅;
     rejects := PyStr.contains "CREATE VIEW analytics.category_daily" |}.

(** Every text of [texts] occurs in [sql]. *)
Definition contains_all (texts : list string) (sql : string) : bool :=
  forallb (fun t => PyStr.contains t sql) texts.

(** No text of [texts] occurs in [sql]. *)
Definition contains_none (texts : list string) (sql : string) : bool :=
  forallb (fun t => negb (PyStr.contains t sql)) texts.

(** * Loading the CSV files

    The rest of the pipeline: reading a header, creating the raw table,
    copying the file into it, and the task that does so for every file. *)

(** ** More Python primitives

    Strings are sequences of 8-bit characters, a Python [str] being read
    as its UTF-8 bytes.  [lower] and [strip] are the Python methods on
    strings of characters below 128 and nowhere else ([str.lower] and
    [str.strip] also act on cased letters and white space beyond ASCII), so
    every statement that goes through them is made of ASCII strings:
    [ascii_only] is its hypothesis. *)

Module Py.

Definition is_ascii (c : ascii) : bool := Nat.ltb (nat_of_ascii c) 128.

Fixpoint ascii_only (s : string) : bool :=
  match s with
  | "" => true
  | String c s' => is_ascii c && ascii_only s'
  end.

(** [str.isspace] below 128: tab to carriage return, the four separators
    28 to 31, and the space. *)
Definition is_whitespace (c : ascii) : bool :=
  let n := nat_of_ascii c in
  (Nat.leb 9 n && Nat.leb n 13) || (Nat.leb 28 n && Nat.leb n 32).

Fixpoint lstrip (s : string) : string :=
  match s with
  | String c s' => if is_whitespace c then lstrip s' else s
  | "" => ""
  end.

Fixpoint rstrip (s : string) : string :=
  match s with
  | "" => ""
  | String c s' =>
      match rstrip s' with
      | "" => if is_whitespace c then "" else String c ""
      | r => String c r
      end
  end.

(** [s.strip()] *)
Definition strip (s : string) : string := rstrip (lstrip s).

Definition is_upper (c : ascii) : bool :=
  let n := nat_of_ascii c in Nat.leb 65 n && Nat.leb n 90.

Definition lower_char (c : ascii) : ascii :=
  if is_upper c then ascii_of_nat (nat_of_ascii c + 32) else c.

(** [s.lower()] *)
Fixpoint lower (s : string) : string :=
  match s with
  | "" => ""
  | String c s' => String (lower_char c) (lower s')
  end.

(** [sep.join(items)] *)
Fixpoint join (sep : string) (items : list string) : string :=
  match items with
  | [] => ""
  | [x] => x
  | x :: rest => x +:+ sep +:+ join sep rest
  end.

(** [s.split(sep)] for a one-character separator. *)
Fixpoint split (sep : ascii) (s : string) : list string :=
  match s with
  | "" => [""]
  | String c s' =>
      if Ascii.eqb c sep then "" :: split sep s'
      else match split sep s' with
           | [] => [String c ""]
           | piece :: rest => String c piece :: rest
           end
  end.

(** [s.rpartition(sep)] when [sep] occurs: what stands before and after its
    last occurrence. *)
Fixpoint rpartition (sep : ascii) (s : string) : option (string * string) :=
  match s with
  | "" => None
  | String c s' =>
      match rpartition sep s' with
      | Some (before, after) => Some (String c before, after)
      | None => if Ascii.eqb c sep then Some ("", s') else None
      end
  end.

(** [PurePosixPath(path).name]: the last component, empty components and
    single dots left out. *)
Definition name (path : string) : string :=
  List.last (filter (fun part => part <> "" /\ part <> ".") (split "/" path)) "".

(** [PurePosixPath(path).stem]: the name without its last suffix; a name
    whose only dot is its first or its last character has no suffix. *)
Definition stem (path : string) : string :=
  let n := name path in
  match rpartition "." n with
  | Some ("", _) | Some (_, "") | None => n
  | Some (before, _) => before
  end.

End Py.

(** [s] with every [a] replaced by [new], character by character. *)
Fixpoint substitute (a : ascii) (new s : string) : string :=
  match s with
  | "" => ""
  | String c s' =>
      if Ascii.eqb c a then new +:+ substitute a new s' else String c (substitute a new s')
  end.

(** Every character of [s] passes [test]. *)
Fixpoint every (test : ascii -> bool) (s : string) : bool :=
  match s with
  | "" => true
  | String c s' => test c && every test s'
  end.

Definition is_space_char (c : ascii) : bool := Ascii.eqb c " ".

(** ** Table statements as the server reads them

    The four forms the loader sends: CREATE SCHEMA IF NOT EXISTS, DROP TABLE
    IF EXISTS, CREATE TABLE with TEXT columns, and COPY FROM STDIN.  Table
    names are a bare schema, a dot and a delimited identifier; column names
    are delimited identifiers. *)

Module TableSql.

Inductive statement :=
| CreateSchema (schema : string)
| DropTable (schema table : string)
| CreateTable (schema table : string) (cols : list string)
| Copy (schema table : string) (cols : list string).

(** [s] without its prefix [p], if it has it. *)
Fixpoint expect (p s : string) : option string :=
  match p with
  | "" => Some s
  | String a p' =>
      match s with
      | String b s' => if Ascii.eqb a b then expect p' s' else None
      | "" => None
      end
  end.

Definition is_bare (c : ascii) : bool :=
  let n := nat_of_ascii c in (Nat.leb 97 n && Nat.leb n 122) || Nat.eqb n 95.

(** The leading run of lower-case letters and underscores, and the rest. *)
Fixpoint bare (s : string) : string * string :=
  match s with
  | "" => ("", "")
  | String c s' =>
      if is_bare c then let '(w, r) := bare s' in (String c w, r) else ("", s)
  end.

Definition qualified_name (s : string) : option (string * string * string) :=
  let '(schema, r) := bare s in
  if decide (schema = "") then None
  else
    r1 ← expect "." r;
    '(table, r2) ← SqlLex.delimited_identifier r1;
    Some (schema, table, r2).

(** One or more delimited identifiers, each followed by [suffix], separated
    by a comma and a space. *)
Fixpoint items (suffix : string) (fuel : nat) (s : string)
    : option (list string * string) :=
  match fuel with
  | O => None
  | S fuel' =>
      '(name, r) ← SqlLex.delimited_identifier s;
      r1 ← expect suffix r;
      match expect ", " r1 with
      | Some r2 => '(names, rest) ← items suffix fuel' r2; Some (name :: names, rest)
      | None => Some ([name], r1)
      end
  end.

(** The tail of the COPY statement, after the column list. *)
Definition COPY_OPTIONS : string :=
  " FROM STDIN WITH (FORMAT CSV, HEADER TRUE, QUOTE '" +:+ dquote
  +:+ "', ESCAPE '" +:+ dquote +:+ "')".

Definition parse_create_schema (sql : string) : option statement :=
  r ← expect "CREATE SCHEMA IF NOT EXISTS " sql;
  let '(schema, r') := bare r in
  if decide (schema <> "" /\ r' = ";") then Some (CreateSchema schema) else None.

Definition parse_drop_table (sql : string) : option statement :=
  r ← expect "DROP TABLE IF EXISTS " sql;
  '(schema, table, r') ← qualified_name r;
  if decide (r' = ";") then Some (DropTable schema table) else None.

(** A table may be created without columns. *)
Definition parse_create_table (sql : string) : option statement :=
  r ← expect "CREATE TABLE " sql;
  '(schema, table, r1) ← qualified_name r;
  r2 ← expect " (" r1;
  match expect ");" r2 with
  | Some "" => Some (CreateTable schema table [])
  | _ =>
      '(cols, r3) ← items " TEXT" (String.length r2) r2;
      if decide (r3 = ");") then Some (CreateTable schema table cols) else None
  end.

(** The column list of COPY names at least one column. *)
Definition parse_copy (sql : string) : option statement :=
  r ← expect "COPY " sql;
  '(schema, table, r1) ← qualified_name r;
  r2 ← expect " (" r1;
  '(cols, r3) ← items "" (String.length r2) r2;
  r4 ← expect ")" r3;
  if decide (r4 = COPY_OPTIONS) then Some (Copy schema table cols) else None.

Definition parse (sql : string) : option statement :=
  match parse_create_schema sql with
  | Some st => Some st
  | None =>
      match parse_drop_table sql with
      | Some st => Some st
      | None =>
          match parse_create_table sql with
          | Some st => Some st
          | None => parse_copy sql
          end
      end
  end.

End TableSql.

Definition drop_table (st : store) (schema table : string) : store :=
  {| tables := tables st ∖ {[(schema, table)]};
     columns := filter (fun r => (r.1.1, r.1.2) <> (schema, table)) (columns st);
     views := views st;
     rejects := rejects st |}.

Definition create_table (st : store) (schema table : string) (cols : list string) : store :=
  {| tables := {[(schema, table)]} ∪ tables st;
     columns := (columns st ++ ((fun c => (schema, table, c)) <$> cols))%list;
     views := views st;
     rejects := rejects st |}.

(** The columns the catalog lists for a table, in order. *)
Definition columns_of (st : store) (schema table : string) : list string :=
  omap (column_name_of schema table) (columns st).

(** ** Identifier length

    The server keeps at most 63 bytes of an identifier: a longer one is cut
    at the last character boundary of its encoding (UTF-8) within that
    limit, and the statement goes on with the shorter name. *)

Module Pg.

Definition NAMEDATALEN : nat := 64.

(** The length of the UTF-8 character that starts with byte [c]. *)
Definition utf_mblen (c : ascii) : nat :=
  let n := nat_of_ascii c in
  if Nat.ltb n 128 then 1
  else if Nat.leb 192 n && Nat.ltb n 224 then 2
  else if Nat.leb 224 n && Nat.ltb n 240 then 3
  else if Nat.leb 240 n && Nat.ltb n 248 then 4
  else 1.

Definition skip (n : nat) (s : string) : string :=
  String.substring n (String.length s - n) s.

(** The number of bytes of the longest run of whole characters at the
    start of [s] that fits in [limit] bytes. *)
Fixpoint mbcliplen (fuel : nat) (s : string) (limit : nat) : nat :=
  match fuel, s with
  | S fuel', String c _ =>
      let l := utf_mblen c in
      if Nat.ltb limit l then 0
      else l + mbcliplen fuel' (skip l s) (limit - l)
  | _, _ => 0
  end.

Definition truncate_identifier (ident : string) : string :=
  if Nat.leb NAMEDATALEN (String.length ident)
  then String.substring 0
         (mbcliplen (String.length ident) ident (NAMEDATALEN - 1)) ident
  else ident.

(** An identifier the server keeps whole. *)
Definition fits (ident : string) : Prop := String.length ident <= 63.

End Pg.

(** A statement with every name cut to the length the server keeps. *)
Definition truncated (s : TableSql.statement) : TableSql.statement :=
  match s with
  | TableSql.CreateSchema schema => TableSql.CreateSchema (Pg.truncate_identifier schema)
  | TableSql.DropTable schema table =>
      TableSql.DropTable (Pg.truncate_identifier schema) (Pg.truncate_identifier table)
  | TableSql.CreateTable schema table cols =>
      TableSql.CreateTable (Pg.truncate_identifier schema) (Pg.truncate_identifier table)
        (Pg.truncate_identifier <$> cols)
  | TableSql.Copy schema table cols =>
      TableSql.Copy (Pg.truncate_identifier schema) (Pg.truncate_identifier table)
        (Pg.truncate_identifier <$> cols)
  end.

(** The view with this query reads [schema.table], as far as name
    resolution for the queries of this program goes ([Query]); any other
    dependency that makes the server refuse a drop falls under
    [rejects]. *)
Definition depends_on (body schema table : string) : bool :=
  bool_decide ((schema, table) ∈ Query.required_tables body).

(** No view of the store reads [raw.table]. *)
Definition unread (st : store) (table : string) : Prop :=
  map_Forall (fun _ body => depends_on body "raw" table = false) (views st).

(** What a table statement does.  A table that a view reads cannot be
    dropped (the statement has no CASCADE); creating a table that exists,
    or one with two columns of the same name, is an error; COPY needs the
    table and every column it names; rows are not part of the model. *)
Definition table_effect (st : store) (s : TableSql.statement) : option store :=
  match s with
  | TableSql.CreateSchema _ => Some st
  | TableSql.DropTable schema table =>
      if decide (map_Forall (fun _ body => depends_on body schema table = false) (views st))
      then Some (drop_table st schema table)
      else None
  | TableSql.CreateTable schema table cols =>
      if decide (((schema, table) ∉ tables st) /\ NoDup cols)
      then Some (create_table st schema table cols)
      else None
  | TableSql.Copy schema table cols =>
      if decide (((schema, table) ∈ tables st) /\ NoDup cols
                 /\ (cols ⊆ columns_of st schema table))
      then Some st
      else None
  end.

(** One statement of the loader on the server. *)
Definition answer_table (st : store) (sql : string) : option store :=
  if rejects st sql then None
  else s ← TableSql.parse sql; table_effect st (truncated s).

(** ** The loader's computations

    Besides a server error a load can fail on a missing file and on a file
    without a first row. *)

Inductive load_error :=
| ServerError (sql : string)
| FileNotFoundError (path : string)
| StopIteration.

Inductive loaded (A : Type) :=
| Done (a : A)
| Failed (e : load_error).
Arguments Done {A} a.
Arguments Failed {A} e.

Definition L (A : Type) : Type := cursor -> loaded A * cursor.

Definition done {A} (a : A) : L A := fun c => (Done a, c).

Definition fail {A} (e : load_error) : L A := fun c => (Failed e, c).

Definition and_then {A B} (m : L A) (k : A -> L B) : L B :=
  fun c =>
    match m c with
    | (Done a, c') => k a c'
    | (Failed e, c') => (Failed e, c')
    end.

Notation "'do*' x ':=' m 'in' k" := (and_then m (fun x => k))
  (at level 10, x name, m at level 100, k at level 200, only parsing).
Notation "'step*' m 'in' k" := (and_then m (fun _ => k))
  (at level 10, m at level 100, k at level 200, only parsing).

(** [cur.execute(sql)] and [cur.copy_expert(sql, f)] with a table
    statement.  The cursor holds the store as the open transaction of the
    task sees it: what an accepted statement does is kept only if the task
    ends normally (see [in_transaction]). *)
Definition submit (sql : string) : L unit :=
  fun c =>
    let logged := (trace c ++ [sql])%list in
    match answer_table (db c) sql with
    | Some st => (Done tt, {| db := st; fetched := []; trace := logged |})
    | None => (Failed (ServerError sql),
               {| db := db c; fetched := fetched c; trace := logged |})
    end.

(** The files under the data directory: a path maps to the rows
    [csv.reader] yields for it. *)
Definition csv_files := gmap string (list (list string)).

(** ** The loader *)

(** One header cell: [h.strip().lower().replace(" ", "_")]. *)
Definition normalize (h : string) : string :=
  PyStr.replace " " "_" (Py.lower (Py.strip h)).

Definition read_csv_header (files : csv_files) (path : string) : L (list string) :=
  match files !! path with
  | None => fail (FileNotFoundError path)
  | Some [] => fail StopIteration
  | Some (header :: _) => done (normalize <$> header)
  end.

Definition CREATE_SCHEMA_RAW : string := "CREATE SCHEMA IF NOT EXISTS raw;".

Definition drop_table_sql (table : string) : string :=
  "DROP TABLE IF EXISTS raw." +:+ _identifier table +:+ ";".

Definition create_table_sql (table : string) (header : list string) : string :=
  "CREATE TABLE raw." +:+ _identifier table +:+ " ("
  +:+ Py.join ", " ((fun c => _identifier c +:+ " TEXT") <$> header) +:+ ");".

Definition copy_sql (table : string) (header : list string) : string :=
  "COPY raw." +:+ _identifier table +:+ " ("
  +:+ Py.join ", " (_identifier <$> header) +:+ ")" +:+ TableSql.COPY_OPTIONS.

Definition create_raw_table_from_header (table : string) (header : list string) : L unit :=
  step* submit CREATE_SCHEMA_RAW in
  step* submit (drop_table_sql table) in
  submit (create_table_sql table header).

Definition copy_csv_into_table (files : csv_files) (table path : string)
    (header : list string) : L unit :=
  match files !! path with
  | None => fail (FileNotFoundError path)
  | Some _ => submit (copy_sql table header)
  end.

(** [Path(path).stem.lower().replace(" ", "_")] *)
Definition table_of (path : string) : string :=
  PyStr.replace " " "_" (Py.lower (Py.stem path)).

Fixpoint load_each (files : csv_files) (csv_paths : list string) : L unit :=
  match csv_paths with
  | [] => done tt
  | path :: rest =>
      let table := table_of path in
      do* header := read_csv_header files path in
      step* create_raw_table_from_header table header in
      step* copy_csv_into_table files table path header in
      load_each files rest
  end.

(** [with pg_connect(ANALYTICS_DB) as conn: ... body] for the loader: one
    transaction, committed when the body ends normally and rolled back
    when an exception leaves it (see [with_connection]). *)
Definition in_transaction {A} (body : L A) (st : store) : loaded A * cursor :=
  match body (connect st) with
  | (Done a, c) => (Done a, c)
  | (Failed e, c) => (Failed e, {| db := st; fetched := fetched c; trace := trace c |})
  end.

(** The task run on a store; its value is the one under the key
    [tables_loaded] of the dictionary it returns. *)
Definition load_csvs_to_postgres (files : csv_files) (csv_paths : list string)
    (st : store) : loaded (list string) * cursor :=
  match in_transaction (load_each files csv_paths) st with
  | (Done _, c) => (Done (Py.stem <$> csv_paths), c)
  | (Failed e, c) => (Failed e, c)
  end.

(** ** Notions used to state what the loader does *)

(** The first row of a file, normalized, when the file has one. *)
Definition header_of (files : csv_files) (path : string) : option (list string) :=
  match files !! path with
  | Some (header :: _) => Some (normalize <$> header)
  | _ => None
  end.

(** The first character of [s], if any, is not whitespace. *)
Definition head_clean (s : string) : bool :=
  match s with
  | "" => true
  | String c _ => negb (Py.is_whitespace c)
  end.

(** The last character of [s], if any, is not whitespace. *)
Fixpoint last_clean (s : string) : bool :=
  match s with
  | "" => true
  | String c s' =>
      match s' with
      | "" => negb (Py.is_whitespace c)
      | _ => last_clean s'
      end
  end.

(** Dropping [raw.table] and creating it anew with the columns [header]. *)
Definition reload (st : store) (table : string) (header : list string) : store :=
  create_table (drop_table st "raw" table) "raw" table header.

(** The three texts [create_raw_table_from_header] submits. *)
Definition create_texts (table : string) (header : list string) : list string :=
  [CREATE_SCHEMA_RAW; drop_table_sql table; create_table_sql table header].

(** The four texts submitted for one file. *)
Definition file_texts (path : string) (header : list string) : list string :=
  (create_texts (table_of path) header ++ [copy_sql (table_of path) header])%list.

(** A header the server can take as it is: some columns, all named, all
    distinct, none longer than the server keeps. *)
Definition well_formed (header : list string) : Prop :=
  header <> [] /\ Forall (fun x => x <> "") header /\ NoDup header
  /\ Forall Pg.fits header.

(** The path and the cells of the first row of the file, if there is one,
    are ASCII. *)
Definition plain (files : csv_files) (path : string) : Prop :=
  Py.ascii_only path = true
  /\ match files !! path with
     | Some (row :: _) => Forall (fun h => Py.ascii_only h = true) row
     | _ => True
     end.

(** A file that loads on a server refusing what [refuses] says: its path
    and first row are ASCII, its table name is not empty and not too long,
    its header is well formed and none of its four texts is refused. *)
Definition loads (files : csv_files) (refuses : string -> bool) (path : string) : Prop :=
  plain files path
  /\ table_of path <> ""
  /\ Pg.fits (table_of path)
  /\ exists header,
       header_of files path = Some header
       /\ well_formed header
       /\ Forall (fun sql => refuses sql = false) (file_texts path header).

(** The store after the files of [paths] have been loaded in order. *)
Fixpoint loaded_store (files : csv_files) (paths : list string) (st : store) : store :=
  match paths with
  | [] => st
  | path :: rest =>
      loaded_store files rest
        match header_of files path with
        | Some header => reload st (table_of path) header
        | None => st
        end
  end.

(** The texts submitted for the files of [paths], in order. *)
Fixpoint load_trace (files : csv_files) (paths : list string) : list string :=
  match paths with
  | [] => []
  | path :: rest =>
      (match header_of files path with
       | Some header => file_texts path header
       | None => []
       end ++ load_trace files rest)%list
  end.

(** The header of the last file of [paths] that goes to [table]. *)
Fixpoint latest (files : csv_files) (paths : list string) (table : string)
    : option (list string) :=
  match paths with
  | [] => None
  | path :: rest =>
      match latest files rest table with
      | Some header => Some header
      | None => if decide (table_of path = table) then header_of files path else None
      end
  end.

(** Two files whose names differ only in case. *)
Definition colliding_files : csv_files :=
  <["/data/Orders.csv" := [["Order ID"]; ["1"]]]>
    (<["/data/orders.csv" := [["id"; "Created At"]; ["1"; "2020-01-01"]]]> ∅).

(** An order_items file with a timestamp, and a file without any row. *)
Definition dated_files : csv_files :=
  <["/data/order_items.csv" := [["ID"; "Order ID"; "Created At"]; ["1"; "7"; "2020-01-01"]]]>
    (<["/data/empty.csv" := []]> ∅).

(** A file whose first row names one column twice once it is normalized,
    after a file that loads. *)
Definition clashing_files : csv_files :=
  <["/data/events.csv" := [["ID"; "Created At"]; ["1"; "2020-01-01"]]]>
    (<["/data/order_items.csv" := [["Order ID"; " order_id "]; ["7"; "7"]]]> ∅).

(** * Bootstrapping the database

    The server as [ensure_postgres_db_and_schemas] sees it: the databases of
    the cluster, each with its schemas, and what the server declines for
    reasons outside the model. *)

Record cluster := Cluster {
  databases : gmap string (gset string);
  declines : string -> bool
}.

Inductive admin_error :=
| OperationalError (dbname : string)
| ProgrammingError (sql : string)
| ActiveSqlTransaction (sql : string).

Inductive admin_outcome (A : Type) :=
| Completed (a : A)
| Aborted (e : admin_error).
Arguments Completed {A} a.
Arguments Aborted {A} e.

(** The cluster and the texts sent so far. *)
Record session := Session {
  world : cluster;
  sent : list string
}.

Definition Admin (A : Type) : Type := session -> admin_outcome A * session.


Definition abort {A} (e : admin_error) : Admin A := fun s => (Aborted e, s).

Definition next {A B} (m : Admin A) (k : A -> Admin B) : Admin B :=
  fun s =>
    match m s with
    | (Completed a, s') => k a s'
    | (Aborted e, s') => (Aborted e, s')
    end.

Notation "'get*' x ':=' m 'in' k" := (next m (fun x => k))
  (at level 10, x name, m at level 100, k at level 200, only parsing).
Notation "'then*' m 'in' k" := (next m (fun _ => k))
  (at level 10, m at level 100, k at level 200, only parsing).














(** Decidable facts about concrete stores are settled by evaluation. *)
Ltac by_evaluation := apply (bool_decide_unpack _); vm_compute; exact I.

(** * Strings *)

Section Strings.

Lemma append_assoc (a b c : string) : (a +:+ b) +:+ c = a +:+ (b +:+ c).
Proof.
  induction a as [|x a IH]; [reflexivity|].
  change (String x ((a +:+ b) +:+ c) = String x (a +:+ (b +:+ c))).
  now rewrite IH.
Qed.

Lemma append_nil_r (a : string) : a +:+ "" = a.
Proof.
  induction a as [|x a IH]; [reflexivity|].
  change (String x (a +:+ "") = String x a). now rewrite IH.
Qed.

Lemma append_cons (x : ascii) (a b : string) :
  String x a +:+ b = String x (a +:+ b).
Proof. reflexivity. Qed.

End Strings.

Lemma format_order_items d o i r :
  PyStr.format KPI_DAILY_ORDER_ITEMS_TEMPLATE
    [("date_expr", d); ("orders_expr", o); ("items_expr", i); ("revenue_expr", r)]
  = Some (kpi_daily_order_items_sql d o i r).
Proof.
  unfold kpi_daily_order_items_sql, aov_sql.
  rewrite !append_assoc. reflexivity.
Qed.

Lemma format_orders d :
  PyStr.format KPI_DAILY_ORDERS_TEMPLATE [("date_expr", d)]
  = Some (kpi_daily_orders_sql d).
Proof. reflexivity. Qed.

(** * Identifier quoting *)

Section Quoting.

Lemma replace_dquote (name : string) :
  PyStr.replace dquote (dquote +:+ dquote) name = doubled name.
Proof.
  unfold PyStr.replace, dquote.
  induction name as [|c s IH]; [reflexivity|].
  cbn [PyStr.replace_from doubled String.prefix String.length].
  unfold SqlLex.is_dquote.
  destruct (ascii_dec (ascii_of_nat 34) c) as [<-|Hne].
  - rewrite Ascii.eqb_refl. cbn.
    replace (String.prefix "" s) with true by (now destruct s).
    rewrite IH. reflexivity.
  - destruct (Ascii.eqb_spec c (ascii_of_nat 34)) as [->|_]; [congruence|].
    now rewrite IH.
Qed.

Lemma body_doubled (name rest : string) :
  SqlLex.no_leading_dquote rest ->
  SqlLex.body (doubled name +:+ dquote +:+ rest) = Some (name, rest).
Proof.
  intros Hrest. induction name as [|c s IH].
  - destruct rest as [|c r]; [reflexivity|].
    unfold SqlLex.no_leading_dquote in Hrest.
    change (SqlLex.body (String (ascii_of_nat 34) (String c r)) = Some ("", String c r)).
    cbn [SqlLex.body]. rewrite Hrest. reflexivity.
  - cbn [doubled]. destruct (SqlLex.is_dquote c) eqn:Hc.
    + rewrite !append_cons. cbn [SqlLex.body]. rewrite Hc, IH. reflexivity.
    + rewrite append_cons. cbn [SqlLex.body]. rewrite Hc, IH. reflexivity.
Qed.

End Quoting.

(** C7. [_identifier] wraps any name in double quotes and doubles every
    double quote inside it.  Read back by the lexical rule for delimited
    identifiers, in front of any text that does not itself start with a
    double quote, the quoted form of a non-empty name (one that holds a
    space or a double quote, for instance) denotes exactly that name and
    leaves the rest of the text unread. *)
Theorem identifier_roundtrip (name : string) :
  _identifier name = dquote +:+ doubled name +:+ dquote
  /\ (forall rest,
        name <> "" ->
        SqlLex.no_leading_dquote rest ->
        SqlLex.delimited_identifier (_identifier name +:+ rest) = Some (name, rest)).
Proof.
  unfold _identifier. rewrite replace_dquote.
  split; [reflexivity|]. intros rest Hname Hrest.
  rewrite !append_assoc. unfold dquote at 1.
  rewrite append_cons. cbn [String.append SqlLex.delimited_identifier].
  change (SqlLex.is_dquote (ascii_of_nat 34)) with true. cbn iota.
  change ("" +:+ doubled name +:+ dquote +:+ rest)
    with (doubled name +:+ dquote +:+ rest).
  rewrite (body_doubled name rest Hrest).
  destruct name; [congruence|reflexivity].
Qed.

(** A name with a space and a double quote in it, followed by more SQL. *)
Lemma identifier_roundtrip_witness :
  let name := "unit " +:+ dquote +:+ "price" in
  _identifier name = dquote +:+ "unit " +:+ dquote +:+ dquote +:+ "price" +:+ dquote
  /\ SqlLex.delimited_identifier (_identifier name +:+ " TEXT") = Some (name, " TEXT").
Proof.
  destruct (identifier_roundtrip ("unit " +:+ dquote +:+ "price")) as [Hwrap Hread].
  split.
  - rewrite Hwrap. reflexivity.
  - apply Hread; [discriminate|reflexivity].
Defined.

(** The quoted form of the empty name is not a delimited identifier. *)
Remark empty_identifier_unreadable :
  SqlLex.delimited_identifier (_identifier "") = None.
Proof. reflexivity. Qed.

(** * The schema inspector *)

Section Inspector.

Lemma bind_returned {A B} (m : M A) (k : A -> M B) c a c' :
  m c = (Returned a, c') -> bind m k c = k a c'.
Proof. intros H. unfold bind. now rewrite H. Qed.

Lemma bind_raised {A B} (m : M A) (k : A -> M B) c e c' :
  m c = (Raised e, c') -> bind m k c = (Raised e, c').
Proof. intros H. unfold bind. now rewrite H. Qed.

(** Reading the first item of the rows the catalog returns never fails. *)
Lemma for_each_item0 schema table (l : list (string * string * string)) c :
  for_each item0
    (omap (fun r => (fun x => [x]) <$> column_name_of schema table r) l) c
  = (Returned (omap (column_name_of schema table) l), c).
Proof.
  revert c. induction l as [|r l IH]; intros c; [reflexivity|].
  cbn [omap list_omap]. destruct (column_name_of schema table r) as [x|]; cbn.
  - rewrite (bind_returned _ _ _ _ _ (IH c)). reflexivity.
  - apply IH.
Qed.

Lemma table_columns_run schema table c :
  table_columns schema table c
  = (Returned (recorded (db c) schema table),
     {| db := db c; fetched := []; trace := (trace c ++ [COLUMNS_QUERY])%list |}).
Proof.
  unfold table_columns, bind at 1, execute, answer.
  rewrite String.eqb_refl.
  unfold bind at 1, fetchall. cbn [db fetched trace].
  unfold bind, select_columns. rewrite for_each_item0. reflexivity.
Qed.

Lemma elem_of_recorded st schema table col :
  col ∈ recorded st schema table <-> (schema, table, col) ∈ columns st.
Proof.
  unfold recorded. rewrite elem_of_list_to_set, list_elem_of_omap. split.
  - intros ([[s t] x] & Hin & Hname). unfold column_name_of in Hname.
    destruct (String.eqb_spec s schema) as [->|]; [|discriminate].
    destruct (String.eqb_spec t table) as [->|]; [|discriminate].
    cbn in Hname. congruence.
  - intros Hin. exists (schema, table, col). split; [exact Hin|].
    unfold column_name_of. now rewrite !String.eqb_refl.
Qed.

Lemma recorded_empty st schema table :
  (forall col, (schema, table, col) ∉ columns st) ->
  recorded st schema table = ∅.
Proof.
  intros Hnone. apply set_eq. intros col. rewrite elem_of_recorded.
  split; [intros H; destruct (Hnone col H) | set_solver].
Qed.

End Inspector.

(** C8. [table_columns] always returns, never raises: its value is the set
    of column names the catalog records for the table, which is empty both
    for a table that does not exist and for one that exists without
    columns; it depends on the catalogued columns alone, so whether the
    table exists cannot be told from it; the store behind the cursor is
    left as it was (only the pending rows of the cursor and its log of
    submitted texts change). *)
Theorem table_columns_inspects (c : cursor) (schema table : string) :
  let cols := recorded (db c) schema table in
  fst (table_columns schema table c) = Returned cols
  /\ db (snd (table_columns schema table c)) = db c
  /\ (forall col, col ∈ cols <-> (schema, table, col) ∈ columns (db c))
  /\ (catalog_wf (db c) -> (schema, table) ∉ tables (db c) -> cols = ∅)
  /\ ((forall col, (schema, table, col) ∉ columns (db c)) -> cols = ∅)
  /\ (forall c', columns (db c') = columns (db c) ->
        fst (table_columns schema table c') = fst (table_columns schema table c)).
Proof.
  intros cols. rewrite table_columns_run. cbn [fst snd db].
  split; [reflexivity|]. split; [reflexivity|].
  split; [intros col; apply elem_of_recorded|].
  split; [|split].
  - intros Hwf Hmissing. apply recorded_empty. intros col Hin.
    apply Hmissing. exact (Hwf _ _ _ Hin).
  - apply recorded_empty.
  - intros c' Hsame. rewrite table_columns_run. cbn [fst].
    unfold cols, recorded. now rewrite Hsame.
Qed.

(** [raw.orders] does not exist in [undated_store]: the answer is the empty
    set, and the store is untouched. *)
Lemma table_columns_inspects_witness :
  catalog_wf undated_store
  /\ (("raw", "orders") ∉ tables undated_store)
  /\ fst (table_columns "raw" "orders" (connect undated_store)) = Returned ∅
  /\ db (snd (table_columns "raw" "orders" (connect undated_store))) = undated_store.
Proof.
  assert (Hwf : catalog_wf undated_store).
  { intros schema table column Hin.
    assert (HF : Forall (fun r => (r.1.1, r.1.2) ∈ tables undated_store)
                   (columns undated_store))
      by (repeat constructor; by_evaluation).
    rewrite Forall_forall in HF. exact (HF _ Hin). }
  assert (Hmissing : ("raw", "orders") ∉ tables undated_store) by by_evaluation.
  destruct (table_columns_inspects (connect undated_store) "raw" "orders")
    as (Hret & Hdb & _ & Hempty & _ & _).
  split; [exact Hwf|]. split; [exact Hmissing|].
  split; [|exact Hdb]. rewrite <- (Hempty Hwf Hmissing). exact Hret.
Defined.

(** * The view synthesizer: what a run does *)

(** Case analysis on every column test in sight. *)
Ltac by_columns :=
  unfold kpi_daily_statement, category_daily_statement, message, dated,
    category_columns, orders_expr, revenue_expr, items_expr;
  repeat match goal with
         | |- context [has ?x ?cols] => destruct (has x cols)
         end.

(** ** Column tests *)

Section Columns.

Variables oi o p : gset string.

Lemma has_true x (cols : gset string) : has x cols = true <-> x ∈ cols.
Proof. apply bool_decide_eq_true. Qed.

Lemma has_false x (cols : gset string) : has x cols = false <-> x ∉ cols.
Proof. apply bool_decide_eq_false. Qed.



End Columns.

(** ** Replacing a view *)

Section Views.

Variable st : store.
Variable vs : gmap string string.

Lemma lookup_replace_view name body n :
  replace_view name body vs !! n = if decide (name = n) then body else vs !! n.
Proof.
  unfold replace_view. destruct body as [b|]; case_decide; subst;
    simplify_map_eq; reflexivity.
Qed.

(** A drop-then-create script applies unless the query of the view does
    not resolve: the drop makes room. *)
Lemma apply_replace name body :
  apply_script st
    (DropViewIfExists name
     :: match body with Some b => [CreateView name b] | None => [] end) vs
  = if match body with
       | Some b => negb (resolves (tables st) (columns st) b)
       | None => false
       end
    then None
    else Some (replace_view name body vs).
Proof.
  destruct body as [b|]; cbn; [|reflexivity].
  rewrite lookup_delete_eq.
  now destruct (resolves (tables st) (columns st) b).
Qed.

End Views.

Lemma replace_view_twice name body vs :
  replace_view name body (replace_view name body vs) = replace_view name body vs.
Proof.
  apply map_eq. intros n. rewrite !lookup_replace_view. now case_decide.
Qed.

Lemma replace_view_settled n1 b1 n2 b2 vs :
  replace_view n2 b2 (replace_view n1 b1 (replace_view n2 b2 (replace_view n1 b1 vs)))
  = replace_view n2 b2 (replace_view n1 b1 vs).
Proof.
  apply map_eq. intros n. rewrite !lookup_replace_view. now repeat case_decide.
Qed.

(** ** The two scripts *)

Section Scripts.

Variables oi o p : gset string.

Lemma kpi_daily_statement_script :
  let sql := kpi_daily_statement oi o in
  String.eqb sql COLUMNS_QUERY = false
  /\ Sql.parse_script sql
     = Some (DropViewIfExists KPI_DAILY
             :: match view_body sql with Some b => [CreateView KPI_DAILY b] | None => [] end).
Proof. by_columns; vm_compute; split; reflexivity. Qed.

Lemma category_daily_statement_script :
  let sql := category_daily_statement oi o p in
  String.eqb sql COLUMNS_QUERY = false
  /\ Sql.parse_script sql
     = Some (DropViewIfExists CATEGORY_DAILY
             :: match view_body sql with Some b => [CreateView CATEGORY_DAILY b] | None => [] end).
Proof. by_columns; vm_compute; split; reflexivity. Qed.



End Scripts.

(** ** What the server makes of the scripts *)

Section Server.

Variable st : store.

Lemma refuses_with_views vs sql : refuses (with_views st vs) sql = refuses st sql.
Proof. reflexivity. Qed.

(** A refused script is one the server does not answer. *)
Lemma answer_script sql name :
  String.eqb sql COLUMNS_QUERY = false ->
  Sql.parse_script sql
  = Some (DropViewIfExists name
          :: match view_body sql with Some b => [CreateView name b] | None => [] end) ->
  answer st sql []
  = if refuses st sql then None
    else Some (with_views st (replace_view name (view_body sql) (views st)), []).
Proof.
  intros Hq Hparse. unfold answer, refuses, unresolved. rewrite Hq.
  destruct (rejects st sql); [reflexivity|].
  rewrite Hparse, apply_replace. cbn [orb].
  now destruct (view_body sql) as [b|]; [destruct (resolves _ _ b)|].
Qed.

Lemma listed table col :
  has col (recorded st "raw" table) = true ->
  bool_decide (("raw", table, col) ∈ columns st) = true.
Proof.
  intros H. apply bool_decide_eq_true. now apply elem_of_recorded, has_true.
Qed.

Lemma unlisted table col :
  has col (recorded st "raw" table) = false ->
  bool_decide (("raw", table, col) ∈ columns st) = false.
Proof.
  intros H. apply bool_decide_eq_false. rewrite <- elem_of_recorded. now apply has_false.
Qed.

Lemma existing table col :
  catalog_wf st ->
  has col (recorded st "raw" table) = true ->
  bool_decide (("raw", table) ∈ tables st) = true.
Proof.
  intros Hwf H. apply bool_decide_eq_true. apply (Hwf "raw" table col).
  now apply elem_of_recorded, has_true.
Qed.

End Server.

(** Evaluate the closed part of a goal about a generated text. *)
Ltac evaluate t :=
  let v := eval vm_compute in t in
  replace t with v by (vm_compute; reflexivity).

Ltac needs :=
  unfold unresolved, resolves;
  match goal with
  | |- context [view_body ?s] => evaluate (view_body s)
  end;
  cbv iota beta;
  repeat match goal with
         | |- context [Query.required_columns ?b] => evaluate (Query.required_columns b)
         | |- context [Query.required_tables ?b] => evaluate (Query.required_tables b)
         end;
  cbn [forallb].

Section Resolution.

Variable st : store.

(** The kpi_daily scripts read only columns the task has found. *)
Lemma kpi_daily_resolves :
  catalog_wf st ->
  unresolved st (kpi_daily_statement (oi_of st) (o_of st)) = false.
Proof.
  intros Hwf. unfold kpi_daily_statement, orders_expr, revenue_expr, oi_of, o_of.
  destruct (has "created_at" (recorded st "raw" "order_items")) eqn:Hdate;
    [destruct (has "order_id" (recorded st "raw" "order_items")) eqn:Horder;
     destruct (has "sale_price" (recorded st "raw" "order_items")) eqn:Hprice
    |destruct (has "created_at" (recorded st "raw" "orders")) eqn:Hdate'];
    needs; rewrite ?(existing st _ _ Hwf Hdate), ?(existing st _ _ Hwf Hdate'),
             ?(listed st _ _ Hdate), ?(listed st _ _ Hdate'),
             ?(listed st _ _ Horder), ?(listed st _ _ Hprice);
    reflexivity.
Qed.

(** The category_daily script reads [created_at] of [order_items], which
    the task has not looked for. *)
Lemma category_daily_slip :
  "created_at" ∉ oi_of st -> unresolved st CATEGORY_DAILY_SQL = true.
Proof.
  intros H. apply has_false in H. unfold oi_of in H. needs.
  rewrite (unlisted st _ _ H). cbn [andb negb]. now rewrite andb_false_r.
Qed.

Lemma category_daily_resolves :
  catalog_wf st ->
  "created_at" ∈ oi_of st ->
  unresolved st (category_daily_statement (oi_of st) (o_of st) (p_of st)) = false.
Proof.
  intros Hwf Hdate. apply has_true in Hdate.
  unfold category_daily_statement, dated, category_columns, oi_of, o_of, p_of in *.
  rewrite Hdate. cbn [orb andb].
  destruct (has "product_id" (recorded st "raw" "order_items")) eqn:Hproduct;
    [|vm_compute; reflexivity].
  destruct (has "id" (recorded st "raw" "products")) eqn:Hid; [|vm_compute; reflexivity].
  destruct (has "category" (recorded st "raw" "products")) eqn:Hcat;
    [|vm_compute; reflexivity].
  destruct (has "sale_price" (recorded st "raw" "order_items")) eqn:Hprice;
    [|vm_compute; reflexivity].
  cbn [andb]. needs.
  rewrite (existing st _ _ Hwf Hdate), (existing st _ _ Hwf Hid),
    (listed st _ _ Hdate), (listed st _ _ Hproduct), (listed st _ _ Hid),
    (listed st _ _ Hcat), (listed st _ _ Hprice).
  reflexivity.
Qed.

End Resolution.

Lemma execute_script c sql name :
  String.eqb sql COLUMNS_QUERY = false ->
  Sql.parse_script sql
  = Some (DropViewIfExists name
          :: match view_body sql with Some b => [CreateView name b] | None => [] end) ->
  execute sql [] c
  = if refuses (db c) sql
    then (Raised (DatabaseError sql),
          {| db := db c; fetched := fetched c; trace := (trace c ++ [sql])%list |})
    else (Returned tt,
          {| db := with_views (db c) (replace_view name (view_body sql) (views (db c)));
             fetched := []; trace := (trace c ++ [sql])%list |}).
Proof.
  intros Hq Hparse. unfold execute. rewrite (answer_script _ _ _ Hq Hparse).
  now destruct (refuses (db c) sql).
Qed.

(** Changing the views changes nothing the inspector reads. *)
Lemma recorded_with_views st vs schema table :
  recorded (with_views st vs) schema table = recorded st schema table.
Proof. reflexivity. Qed.

(** ** A run on a given store *)

Section Run.

Variable st : store.

Let oi := oi_of st.
Let o := o_of st.
Let p := p_of st.
Let k := kpi_daily_statement oi o.
Let g := category_daily_statement oi o p.
Let queries := [COLUMNS_QUERY; COLUMNS_QUERY; COLUMNS_QUERY].

(** After the three catalog queries the task submits two texts, one per
    view, and returns its message. *)
Lemma build_kpi_views_steps :
  build_kpi_views (connect st)
  = (run* execute k [] in run* execute g [] in ret (message oi o)) (inspected st).
Proof.
  unfold build_kpi_views.
  rewrite (bind_returned _ _ _ _ _ (table_columns_run _ _ _)).
  rewrite (bind_returned _ _ _ _ _ (table_columns_run _ _ _)).
  rewrite (bind_returned _ _ _ _ _ (table_columns_run _ _ _)).
  cbn [db trace connect app]. fold (oi_of st) (o_of st) (p_of st) (inspected st).
  subst k g oi o p.
  unfold create_views, kpi_daily_statement, category_daily_statement, message,
    dated, category_columns, format.
  change (PyStr.contains "order_items" "raw.order_items AS order_items") with true.
  change (PyStr.contains "order_items" "raw.orders AS orders") with false.
  cbv iota. rewrite format_order_items, format_orders.
  destruct (has "created_at" (oi_of st)); [|destruct (has "created_at" (o_of st))];
    cbn [orb andb];
    repeat match goal with
           | |- context [has ?x ?cols] => destruct (has x cols)
           end; reflexivity.
Qed.

(** The statements of the task, before the transaction ends. *)
Lemma body_outcomes :
  build_kpi_views (connect st)
  = if refuses st k then
      (Raised (DatabaseError k),
       {| db := st; fetched := []; trace := (queries ++ [k])%list |})
    else if refuses st g then
      (Raised (DatabaseError g),
       {| db := with_views st (replace_view KPI_DAILY (view_body k) (views st));
          fetched := []; trace := (queries ++ [k; g])%list |})
    else
      (Returned (message oi o),
       {| db := with_views st
                  (replace_view CATEGORY_DAILY (view_body g)
                     (replace_view KPI_DAILY (view_body k) (views st)));
          fetched := []; trace := (queries ++ [k; g])%list |}).
Proof.
  rewrite build_kpi_views_steps.
  destruct (kpi_daily_statement_script oi o) as [Hkq Hkp].
  destruct (category_daily_statement_script oi o p) as [Hgq Hgp].
  fold k in Hkq, Hkp. fold g in Hgq, Hgp.
  unfold bind at 1. rewrite (execute_script _ _ _ Hkq Hkp).
  cbn [inspected db fetched trace].
  destruct (refuses st k); [reflexivity|].
  unfold bind at 1. rewrite (execute_script _ _ _ Hgq Hgp).
  cbn [db fetched trace]. rewrite refuses_with_views.
  destruct (refuses st g); reflexivity.
Qed.

(** The task as a whole: a refused script ends it and undoes what it
    did. *)
Lemma run_outcomes :
  run st
  = if refuses st k then
      (Raised (DatabaseError k),
       {| db := st; fetched := []; trace := (queries ++ [k])%list |})
    else if refuses st g then
      (Raised (DatabaseError g),
       {| db := st; fetched := []; trace := (queries ++ [k; g])%list |})
    else
      (Returned (message oi o),
       {| db := with_views st
                  (replace_view CATEGORY_DAILY (view_body g)
                     (replace_view KPI_DAILY (view_body k) (views st)));
          fetched := []; trace := (queries ++ [k; g])%list |}).
Proof.
  unfold run, with_connection. rewrite body_outcomes.
  destruct (refuses st k); [reflexivity|]. now destruct (refuses st g).
Qed.

Lemma submitted_first : trace (snd (run st)) !! 3%nat = Some k.
Proof.
  rewrite run_outcomes. destruct (refuses st k), (refuses st g); reflexivity.
Qed.

(** How a run that returns has gone. *)
Lemma run_returned msg :
  fst (run st) = Returned msg ->
  msg = message oi o
  /\ refuses st k = false
  /\ refuses st g = false
  /\ trace (snd (run st)) = (queries ++ [k; g])%list
  /\ views (db (snd (run st)))
     = replace_view CATEGORY_DAILY (view_body g)
         (replace_view KPI_DAILY (view_body k) (views st)).
Proof.
  rewrite run_outcomes. destruct (refuses st k), (refuses st g);
    cbn [fst snd db trace views with_views]; intros H; try discriminate.
  injection H as <-. auto.
Qed.

(** A run that raises leaves the store as it found it. *)
Lemma run_raised e :
  fst (run st) = Raised e -> db (snd (run st)) = st.
Proof.
  rewrite run_outcomes. destruct (refuses st k), (refuses st g);
    cbn [fst snd db]; intros H; try discriminate; reflexivity.
Qed.

Lemma installed_kpi_daily msg :
  fst (run st) = Returned msg ->
  views (db (snd (run st))) !! KPI_DAILY = view_body k.
Proof.
  intros H. destruct (run_returned msg H) as (_ & _ & _ & _ & ->).
  rewrite !lookup_replace_view. now repeat case_decide.
Qed.

Lemma installed_category_daily msg :
  fst (run st) = Returned msg ->
  views (db (snd (run st))) !! CATEGORY_DAILY = view_body g.
Proof.
  intros H. destruct (run_returned msg H) as (_ & _ & _ & _ & ->).
  rewrite !lookup_replace_view. now repeat case_decide.
Qed.


End Run.

(** C1. When neither [raw.order_items] nor [raw.orders] records a
    [created_at] column, and the store accepts the two DROP statements, the
    task submits exactly those two statements after its catalog queries,
    returns (does not raise) the message that no created_at column was
    found, and leaves neither view in the store; no other view is
    touched. *)
Theorem no_created_at_drops_both (st : store) :
  "created_at" ∉ oi_of st ->
  "created_at" ∉ o_of st ->
  rejects st "DROP VIEW IF EXISTS analytics.kpi_daily;" = false ->
  rejects st "DROP VIEW IF EXISTS analytics.category_daily;" = false ->
  fst (run st) = Returned "No created_at column found; skipped KPI views."
  /\ trace (snd (run st))
     = [COLUMNS_QUERY; COLUMNS_QUERY; COLUMNS_QUERY;
        "DROP VIEW IF EXISTS analytics.kpi_daily;";
        "DROP VIEW IF EXISTS analytics.category_daily;"]
  /\ views (db (snd (run st))) !! "analytics.kpi_daily" = None
  /\ views (db (snd (run st))) !! "analytics.category_daily" = None
  /\ (forall n, n <> "analytics.kpi_daily" -> n <> "analytics.category_daily" ->
        views (db (snd (run st))) !! n = views st !! n).
Proof.
  intros Hoi Ho Hk Hg. apply has_false in Hoi, Ho.
  rewrite run_outcomes.
  unfold kpi_daily_statement, category_daily_statement, message, dated.
  rewrite Hoi, Ho. cbn [orb andb].
  unfold refuses.
  change (unresolved st DROP_KPI_DAILY) with false.
  change (unresolved st DROP_CATEGORY_DAILY) with false.
  change DROP_KPI_DAILY with "DROP VIEW IF EXISTS analytics.kpi_daily;".
  change DROP_CATEGORY_DAILY with "DROP VIEW IF EXISTS analytics.category_daily;".
  rewrite Hk, Hg. cbn [orb fst snd db trace views with_views app].
  change (view_body "DROP VIEW IF EXISTS analytics.kpi_daily;") with (@None string).
  change (view_body "DROP VIEW IF EXISTS analytics.category_daily;") with (@None string).
  repeat split; try reflexivity.
  - rewrite !lookup_replace_view. now repeat case_decide.
  - rewrite !lookup_replace_view. now repeat case_decide.
  - intros n H1 H2. rewrite !lookup_replace_view.
    repeat case_decide; unfold KPI_DAILY, CATEGORY_DAILY in *; congruence.
Qed.

Lemma no_created_at_drops_both_witness :
  ("created_at" ∉ oi_of undated_store)
  /\ ("created_at" ∉ o_of undated_store)
  /\ is_Some (views undated_store !! "analytics.kpi_daily")
  /\ fst (run undated_store) = Returned "No created_at column found; skipped KPI views."
  /\ views (db (snd (run undated_store))) !! "analytics.kpi_daily" = None
  /\ views (db (snd (run undated_store))) !! "analytics.category_daily" = None.
Proof.
  pose proof (no_created_at_drops_both undated_store
                ltac:(by_evaluation) ltac:(by_evaluation) eq_refl eq_refl) as H.
  split; [by_evaluation|]. split; [by_evaluation|]. split; [by_evaluation|].
  destruct H as (Hret & _ & Hkpi & Hcat & _). auto.
Defined.

(** C2, as the claim states it, fails: in [orders_priced_store] the table
    [order_items] has a [sale_price] column, but [created_at] is found in
    [orders] only, so the task builds the orders-based kpi_daily; that is
    the only view it creates, and it has a date and an order count and no
    revenue metric at all: no submitted text holds a sum of prices. *)
Lemma orders_based_view_has_no_revenue :
  let final := snd (run orders_priced_store) in
  "sale_price" ∈ oi_of orders_priced_store
  /\ fst (run orders_priced_store) = Returned "Views created: analytics.kpi_daily (and analytics.category_daily if columns exist)."
  /\ views (db final) !! "analytics.kpi_daily" = Some "SELECT
                            DATE(orders.created_at::timestamp) AS order_date,
                            COUNT(*) AS orders
                        FROM raw.orders AS orders
                        GROUP BY 1
                        ORDER BY 1"
  /\ views (db final) !! "analytics.category_daily" = None
  /\ Forall (fun sql => contains_none ["SUM("; "sale_price"; "revenue"] sql = true)
       (trace final).
Proof.
  split; [by_evaluation|]. vm_compute.
  split; [reflexivity|]. split; [reflexivity|]. split; [reflexivity|].
  repeat constructor.
Qed.

(** C2, amended.  The revenue metric belongs to the kpi_daily built on
    [order_items], the one the task generates when that table has
    [created_at].  There it is the sum of prices when [order_items] has
    [sale_price] and the row count otherwise, the same expression as the
    revenue column and as the numerator of the aov column, and no text a
    run submits holds both expressions.  Without [created_at] in
    [order_items] the text for kpi_daily names no revenue. *)
Theorem revenue_metric_resolution (st : store) :
  let oi := oi_of st in
  let submitted := trace (snd (run st)) !! 3%nat in
  let installed := views (db (snd (run st))) !! "analytics.kpi_daily" in
  ("created_at" ∈ oi -> "sale_price" ∈ oi ->
     exists sql,
       submitted = Some sql
       /\ contains_all
            ["SUM(COALESCE(order_items.sale_price::numeric, 0)) AS revenue,";
             " THEN SUM(COALESCE(order_items.sale_price::numeric, 0)) / "] sql = true
       /\ contains_none ["COUNT(*)::numeric"] sql = true
       /\ is_Some (view_body sql)
       /\ (forall msg, fst (run st) = Returned msg -> installed = view_body sql))
  /\ ("created_at" ∈ oi -> "sale_price" ∉ oi ->
      exists sql,
        submitted = Some sql
        /\ contains_all
             ["COUNT(*)::numeric AS revenue,"; " THEN COUNT(*)::numeric / "] sql = true
        /\ contains_none ["SUM("; "sale_price"] sql = true
        /\ is_Some (view_body sql)
        /\ (forall msg, fst (run st) = Returned msg -> installed = view_body sql))
  /\ ("created_at" ∉ oi ->
      exists sql,
        submitted = Some sql
        /\ contains_none ["revenue"; "SUM("; "COUNT(*)::numeric"; "sale_price"] sql = true
        /\ (forall msg, fst (run st) = Returned msg -> installed = view_body sql))
  /\ Forall (fun sql =>
               PyStr.contains "SUM(" sql && PyStr.contains "COUNT(*)::numeric" sql = false)
       (trace (snd (run st))).
Proof.
  intros oi submitted installed. subst oi submitted installed.
  rewrite submitted_first.
  assert (Hinst : forall msg, fst (run st) = Returned msg ->
            views (db (snd (run st))) !! "analytics.kpi_daily"
            = view_body (kpi_daily_statement (oi_of st) (o_of st)))
    by (intros msg Hret; exact (installed_kpi_daily st msg Hret)).
  split; [|split; [|split]].
  - intros Hdate Hprice. apply has_true in Hdate, Hprice.
    eexists. split; [reflexivity|].
    unfold kpi_daily_statement in *. rewrite Hdate in *.
    unfold revenue_expr in *. rewrite Hprice in *.
    split; [by_columns; vm_compute; reflexivity|].
    split; [by_columns; vm_compute; reflexivity|].
    split; [by_columns; vm_compute; eexists; reflexivity|exact Hinst].
  - intros Hdate Hprice. apply has_true in Hdate. apply has_false in Hprice.
    eexists. split; [reflexivity|].
    unfold kpi_daily_statement in *. rewrite Hdate in *.
    unfold revenue_expr in *. rewrite Hprice in *.
    split; [by_columns; vm_compute; reflexivity|].
    split; [by_columns; vm_compute; reflexivity|].
    split; [by_columns; vm_compute; eexists; reflexivity|exact Hinst].
  - intros Hdate. apply has_false in Hdate.
    eexists. split; [reflexivity|].
    unfold kpi_daily_statement in *. rewrite Hdate in *.
    split; [by_columns; vm_compute; reflexivity|exact Hinst].
  - rewrite run_outcomes.
    repeat match goal with |- context [refuses ?s ?x] => destruct (refuses s x) end;
      cbn [snd trace app]; by_columns;
      repeat (constructor; [vm_compute; reflexivity|]); constructor.
Qed.

(** Without [sale_price] the revenue of kpi_daily is the row count. *)
Lemma revenue_metric_resolution_witness :
  ("created_at" ∈ oi_of unpriced_store)
  /\ ("sale_price" ∉ oi_of unpriced_store)
  /\ trace (snd (run unpriced_store)) !! 3%nat = Some "
                        DROP VIEW IF EXISTS analytics.kpi_daily;
                        CREATE VIEW analytics.kpi_daily AS
                        SELECT
                            DATE(order_items.created_at::timestamp) AS order_date,
                            COUNT(DISTINCT order_items.order_id) AS orders,
                            COUNT(*) AS items,
                            COUNT(*)::numeric AS revenue,
                            CASE WHEN COUNT(DISTINCT order_items.order_id) > 0 THEN COUNT(*)::numeric / COUNT(DISTINCT order_items.order_id) ELSE NULL END AS aov
                        FROM raw.order_items AS order_items
                        GROUP BY 1
                        ORDER BY 1;
                    "
  /\ is_Some (views (db (snd (run unpriced_store))) !! "analytics.kpi_daily").
Proof.
  assert (Hdate : "created_at" ∈ oi_of unpriced_store) by by_evaluation.
  assert (Hprice : "sale_price" ∉ oi_of unpriced_store) by by_evaluation.
  destruct (revenue_metric_resolution unpriced_store) as (_ & Hcount & _).
  destruct (Hcount Hdate Hprice) as (sql & Hsql & _ & _ & Hsome & Hview).
  split; [exact Hdate|]. split; [exact Hprice|]. split.
  - rewrite Hsql. f_equal. apply (inj Some). rewrite <- Hsql. vm_compute. reflexivity.
  - rewrite (Hview "Views created: analytics.kpi_daily (and analytics.category_daily if columns exist)." ltac:(vm_compute; reflexivity)). exact Hsome.
Defined.

(** C3. The date source is chosen in a fixed order.  With [created_at] in
    [order_items] the order_items-based kpi_daily is generated, whatever
    [orders] holds: five columns, the date taken from
    [order_items.created_at], and no mention of [raw.orders].  With
    [created_at] only in [orders] the text is the fixed two-column
    orders-based script, dated by [orders.created_at].  With neither, only
    the DROP is submitted.  When the run returns the store holds kpi_daily
    with the query of the generated text, or no kpi_daily when there is no
    date column. *)
Theorem date_source_priority (st : store) :
  let oi := oi_of st in
  let o := o_of st in
  let submitted := trace (snd (run st)) !! 3%nat in
  let installed := views (db (snd (run st))) !! "analytics.kpi_daily" in
  ("created_at" ∈ oi ->
     exists sql body,
       submitted = Some sql
       /\ Sql.parse_script sql
          = Some [DropViewIfExists "analytics.kpi_daily"; CreateView "analytics.kpi_daily" body]
       /\ contains_all
            ["DATE(order_items.created_at::timestamp) AS order_date,"; " AS orders,";
             "COUNT(*) AS items,"; " AS revenue,"; " AS aov";
             "FROM raw.order_items AS order_items"] body = true
       /\ contains_none ["raw.orders"; "orders.created_at"] body = true
       /\ (forall msg, fst (run st) = Returned msg -> installed = Some body))
  /\ ("created_at" ∉ oi -> "created_at" ∈ o ->
      submitted = Some "
                        DROP VIEW IF EXISTS analytics.kpi_daily;
                        CREATE VIEW analytics.kpi_daily AS
                        SELECT
                            DATE(orders.created_at::timestamp) AS order_date,
                            COUNT(*) AS orders
                        FROM raw.orders AS orders
                        GROUP BY 1
                        ORDER BY 1;
                    "
      /\ Sql.parse_script "
                        DROP VIEW IF EXISTS analytics.kpi_daily;
                        CREATE VIEW analytics.kpi_daily AS
                        SELECT
                            DATE(orders.created_at::timestamp) AS order_date,
                            COUNT(*) AS orders
                        FROM raw.orders AS orders
                        GROUP BY 1
                        ORDER BY 1;
                    "
         = Some [DropViewIfExists "analytics.kpi_daily";
                 CreateView "analytics.kpi_daily" "SELECT
                            DATE(orders.created_at::timestamp) AS order_date,
                            COUNT(*) AS orders
                        FROM raw.orders AS orders
                        GROUP BY 1
                        ORDER BY 1"]
      /\ (forall msg, fst (run st) = Returned msg ->
            installed = Some "SELECT
                            DATE(orders.created_at::timestamp) AS order_date,
                            COUNT(*) AS orders
                        FROM raw.orders AS orders
                        GROUP BY 1
                        ORDER BY 1"))
  /\ ("created_at" ∉ oi -> "created_at" ∉ o ->
      submitted = Some "DROP VIEW IF EXISTS analytics.kpi_daily;"
      /\ (forall msg, fst (run st) = Returned msg -> installed = None)).
Proof.
  intros oi o submitted installed. subst submitted installed oi o.
  rewrite submitted_first.
  assert (Hinst : forall msg, fst (run st) = Returned msg ->
            views (db (snd (run st))) !! "analytics.kpi_daily"
            = view_body (kpi_daily_statement (oi_of st) (o_of st)))
    by (intros msg Hret; exact (installed_kpi_daily st msg Hret)).
  unfold kpi_daily_statement in *.
  split; [|split].
  - intros H. apply has_true in H. rewrite H in *.
    unfold orders_expr, revenue_expr in *.
    destruct (has "order_id" (oi_of st)), (has "sale_price" (oi_of st));
      eexists _, _; (split; [reflexivity|]);
      (split; [vm_compute; reflexivity|]);
      (split; [vm_compute; reflexivity|]);
      (split; [vm_compute; reflexivity|]);
      intros msg Hret; rewrite (Hinst msg Hret); vm_compute; reflexivity.
  - intros H1 H2. apply has_false in H1. apply has_true in H2. rewrite H1, H2 in *.
    split; [vm_compute; reflexivity|]. split; [vm_compute; reflexivity|].
    intros msg Hret. rewrite (Hinst msg Hret). vm_compute. reflexivity.
  - intros H1 H2. apply has_false in H1, H2. rewrite H1, H2 in *.
    split; [reflexivity|].
    intros msg Hret. rewrite (Hinst msg Hret). vm_compute. reflexivity.
Qed.

(** With [created_at] in [orders] only, the orders-based variant is
    installed. *)
Lemma date_source_priority_witness :
  ("created_at" ∉ oi_of orders_priced_store)
  /\ ("created_at" ∈ o_of orders_priced_store)
  /\ fst (run orders_priced_store) = Returned "Views created: analytics.kpi_daily (and analytics.category_daily if columns exist)."
  /\ trace (snd (run orders_priced_store)) !! 3%nat
     = Some "
                        DROP VIEW IF EXISTS analytics.kpi_daily;
                        CREATE VIEW analytics.kpi_daily AS
                        SELECT
                            DATE(orders.created_at::timestamp) AS order_date,
                            COUNT(*) AS orders
                        FROM raw.orders AS orders
                        GROUP BY 1
                        ORDER BY 1;
                    "
  /\ views (db (snd (run orders_priced_store))) !! "analytics.kpi_daily"
     = Some "SELECT
                            DATE(orders.created_at::timestamp) AS order_date,
                            COUNT(*) AS orders
                        FROM raw.orders AS orders
                        GROUP BY 1
                        ORDER BY 1".
Proof.
  assert (Hoi : "created_at" ∉ oi_of orders_priced_store) by by_evaluation.
  assert (Ho : "created_at" ∈ o_of orders_priced_store) by by_evaluation.
  assert (Hret : fst (run orders_priced_store) = Returned "Views created: analytics.kpi_daily (and analytics.category_daily if columns exist).")
    by (vm_compute; reflexivity).
  destruct (date_source_priority orders_priced_store) as (_ & Horders & _).
  destruct (Horders Hoi Ho) as (Hsql & _ & Hview).
  split; [exact Hoi|]. split; [exact Ho|]. split; [exact Hret|].
  split; [exact Hsql|]. exact (Hview _ Hret).
Defined.

(** C4, as the claim states it, fails: on [kpi_refusing_store] the server
    refuses the kpi_daily script, the task raises at once, no statement
    about category_daily is ever submitted, and the category_daily of the
    earlier run is still in the store. *)
Lemma kpi_failure_skips_category :
  fst (run kpi_refusing_store) = Raised (DatabaseError "
                        DROP VIEW IF EXISTS analytics.kpi_daily;
                        CREATE VIEW analytics.kpi_daily AS
                        SELECT
                            DATE(order_items.created_at::timestamp) AS order_date,
                            COUNT(DISTINCT order_items.order_id) AS orders,
                            COUNT(*) AS items,
                            SUM(COALESCE(order_items.sale_price::numeric, 0)) AS revenue,
                            CASE WHEN COUNT(DISTINCT order_items.order_id) > 0 THEN SUM(COALESCE(order_items.sale_price::numeric, 0)) / COUNT(DISTINCT order_items.order_id) ELSE NULL END AS aov
                        FROM raw.order_items AS order_items
                        GROUP BY 1
                        ORDER BY 1;
                    ")
  /\ trace (snd (run kpi_refusing_store))
     = [COLUMNS_QUERY; COLUMNS_QUERY; COLUMNS_QUERY;
        "
                        DROP VIEW IF EXISTS analytics.kpi_daily;
                        CREATE VIEW analytics.kpi_daily AS
                        SELECT
                            DATE(order_items.created_at::timestamp) AS order_date,
                            COUNT(DISTINCT order_items.order_id) AS orders,
                            COUNT(*) AS items,
                            SUM(COALESCE(order_items.sale_price::numeric, 0)) AS revenue,
                            CASE WHEN COUNT(DISTINCT order_items.order_id) > 0 THEN SUM(COALESCE(order_items.sale_price::numeric, 0)) / COUNT(DISTINCT order_items.order_id) ELSE NULL END AS aov
                        FROM raw.order_items AS order_items
                        GROUP BY 1
                        ORDER BY 1;
                    "]
  /\ Forall (fun text => PyStr.contains "category_daily" text = false)
       (trace (snd (run kpi_refusing_store)))
  /\ views (db (snd (run kpi_refusing_store))) !! "analytics.category_daily"
     = Some "SELECT 2".
Proof.
  vm_compute. split; [reflexivity|]. split; [reflexivity|]. split; [|reflexivity].
  repeat constructor.
Qed.

(** C4, amended.  A statement the store rejects ends the run: the error
    raised by that [execute] call, which carries the rejected text, leaves
    the task, and nothing is submitted after it.  When the kpi_daily text
    is rejected no text about category_daily is submitted; when the
    category_daily text is rejected the task raises all the same.  The
    task returns only when both texts are accepted. *)
Theorem store_rejection_aborts (st : store) :
  let k := kpi_daily_statement (oi_of st) (o_of st) in
  let g := category_daily_statement (oi_of st) (o_of st) (p_of st) in
  let queries := [COLUMNS_QUERY; COLUMNS_QUERY; COLUMNS_QUERY] in
  (PyStr.contains "DROP VIEW IF EXISTS analytics.kpi_daily;" k = true
   /\ PyStr.contains "category_daily" k = false
   /\ PyStr.contains "DROP VIEW IF EXISTS analytics.category_daily;" g = true)
  /\ (answer st k [] = None ->
      fst (run st) = Raised (DatabaseError k)
      /\ trace (snd (run st)) = (queries ++ [k])%list)
  /\ (forall st1 rows,
        answer st k [] = Some (st1, rows) ->
        answer st1 g [] = None ->
        fst (run st) = Raised (DatabaseError g)
        /\ trace (snd (run st)) = (queries ++ [k; g])%list)
  /\ (forall msg,
        fst (run st) = Returned msg ->
        exists st1 st2,
          answer st k [] = Some (st1, [])
          /\ answer st1 g [] = Some (st2, [])
          /\ db (snd (run st)) = st2
          /\ trace (snd (run st)) = (queries ++ [k; g])%list).
Proof.
  intros k g queries.
  destruct (kpi_daily_statement_script (oi_of st) (o_of st)) as [Hkq Hkp].
  destruct (category_daily_statement_script (oi_of st) (o_of st) (p_of st)) as [Hgq Hgp].
  fold k in Hkq, Hkp. fold g in Hgq, Hgp.
  pose proof (run_outcomes st) as H. cbv zeta in H. fold k g queries in H.
  split.
  { subst k g. by_columns; vm_compute; auto. }
  rewrite (answer_script st k _ Hkq Hkp), H.
  destruct (refuses st k) eqn:Hk.
  - split; [auto|]. split; [discriminate|]. discriminate.
  - split; [discriminate|]. split.
    + intros st1 rows Heq. injection Heq as <- <-.
      rewrite (answer_script _ g _ Hgq Hgp), refuses_with_views.
      destruct (refuses st g); [auto|discriminate].
    + intros msg Hret. destruct (refuses st g) eqn:Hg; [discriminate|].
      eexists _, _. split; [reflexivity|]. split.
      * rewrite (answer_script _ g _ Hgq Hgp), refuses_with_views, Hg. reflexivity.
      * split; reflexivity.
Qed.

Lemma store_rejection_aborts_witness :
  let k := kpi_daily_statement (oi_of kpi_refusing_store) (o_of kpi_refusing_store) in
  answer kpi_refusing_store k [] = None
  /\ fst (run kpi_refusing_store) = Raised (DatabaseError k)
  /\ length (trace (snd (run kpi_refusing_store))) = 4%nat.
Proof.
  intros k.
  assert (Hk : answer kpi_refusing_store k [] = None) by (vm_compute; reflexivity).
  destruct (store_rejection_aborts kpi_refusing_store) as (_ & Hfirst & _).
  destruct (Hfirst Hk) as [Hret Htrace].
  split; [exact Hk|]. split; [exact Hret|]. now rewrite Htrace.
Defined.

(** C5. A second run, started on the store the first run left, reads the
    same three column sets, submits the very same texts, ends the same way (the
    same message or the same error) and leaves the store exactly as the
    first run left it. *)
Theorem synthesizer_idempotent (st : store) :
  let first := run st in
  let second := run (db (snd first)) in
  (oi_of (db (snd first)), o_of (db (snd first)), p_of (db (snd first)))
  = (oi_of st, o_of st, p_of st)
  /\ fst second = fst first
  /\ trace (snd second) = trace (snd first)
  /\ db (snd second) = db (snd first).
Proof.
  intros first second. subst first second.
  split.
  { rewrite (run_outcomes st).
    repeat match goal with |- context [refuses ?s ?x] => destruct (refuses s x) end;
      reflexivity. }
  rewrite (run_outcomes st).
  set (k := kpi_daily_statement (oi_of st) (o_of st)).
  set (g := category_daily_statement (oi_of st) (o_of st) (p_of st)).
  destruct (refuses st k) eqn:Hk; [|destruct (refuses st g) eqn:Hg];
    cbn [snd db]; rewrite run_outcomes;
    unfold oi_of, o_of, p_of; rewrite ?recorded_with_views;
    fold (oi_of st) (o_of st) (p_of st); fold k g;
    rewrite ?refuses_with_views, ?Hk, ?Hg; cbn [fst snd db trace].
  - auto.
  - auto.
  - unfold with_views; cbn [tables columns rejects views].
    rewrite replace_view_settled. auto.
Qed.



(** C9.  With [created_at] in [orders] only and every column the category
    test asks for, the task submits the orders-based kpi_daily and then the
    category_daily script, whose query reads [oi.created_at] with [oi]
    standing for [raw.order_items].  That column does not exist: the server
    refuses the script whatever else it would accept, the task raises, and
    with its transaction undone the store holds neither view anew. *)
Theorem category_daily_reads_missing_column (st : store) :
  catalog_wf st ->
  "created_at" ∉ oi_of st ->
  "created_at" ∈ o_of st ->
  "product_id" ∈ oi_of st ->
  "sale_price" ∈ oi_of st ->
  "id" ∈ p_of st ->
  "category" ∈ p_of st ->
  rejects st "
                        DROP VIEW IF EXISTS analytics.kpi_daily;
                        CREATE VIEW analytics.kpi_daily AS
                        SELECT
                            DATE(orders.created_at::timestamp) AS order_date,
                            COUNT(*) AS orders
                        FROM raw.orders AS orders
                        GROUP BY 1
                        ORDER BY 1;
                    " = false ->
  fst (run st) = Raised (DatabaseError "
                        DROP VIEW IF EXISTS analytics.category_daily;
                        CREATE VIEW analytics.category_daily AS
                        SELECT
                            DATE(oi.created_at::timestamp) AS order_date,
                            p.category AS category,
                            COUNT(*) AS items,
                            SUM(COALESCE(oi.sale_price::numeric, 0)) AS revenue
                        FROM raw.order_items oi
                        JOIN raw.products p ON p.id = oi.product_id
                        GROUP BY 1,2
                        ORDER BY 1,2;
                    ")
  /\ trace (snd (run st))
     = [COLUMNS_QUERY; COLUMNS_QUERY; COLUMNS_QUERY;
        "
                        DROP VIEW IF EXISTS analytics.kpi_daily;
                        CREATE VIEW analytics.kpi_daily AS
                        SELECT
                            DATE(orders.created_at::timestamp) AS order_date,
                            COUNT(*) AS orders
                        FROM raw.orders AS orders
                        GROUP BY 1
                        ORDER BY 1;
                    ";
        "
                        DROP VIEW IF EXISTS analytics.category_daily;
                        CREATE VIEW analytics.category_daily AS
                        SELECT
                            DATE(oi.created_at::timestamp) AS order_date,
                            p.category AS category,
                            COUNT(*) AS items,
                            SUM(COALESCE(oi.sale_price::numeric, 0)) AS revenue
                        FROM raw.order_items oi
                        JOIN raw.products p ON p.id = oi.product_id
                        GROUP BY 1,2
                        ORDER BY 1,2;
                    "]
  /\ Sql.parse_script "
                        DROP VIEW IF EXISTS analytics.category_daily;
                        CREATE VIEW analytics.category_daily AS
                        SELECT
                            DATE(oi.created_at::timestamp) AS order_date,
                            p.category AS category,
                            COUNT(*) AS items,
                            SUM(COALESCE(oi.sale_price::numeric, 0)) AS revenue
                        FROM raw.order_items oi
                        JOIN raw.products p ON p.id = oi.product_id
                        GROUP BY 1,2
                        ORDER BY 1,2;
                    "
     = Some [DropViewIfExists "analytics.category_daily";
             CreateView "analytics.category_daily" "SELECT
                            DATE(oi.created_at::timestamp) AS order_date,
                            p.category AS category,
                            COUNT(*) AS items,
                            SUM(COALESCE(oi.sale_price::numeric, 0)) AS revenue
                        FROM raw.order_items oi
                        JOIN raw.products p ON p.id = oi.product_id
                        GROUP BY 1,2
                        ORDER BY 1,2"]
  /\ ("raw", "order_items", "created_at")
     ∈ default [] (Query.required_columns "SELECT
                            DATE(oi.created_at::timestamp) AS order_date,
                            p.category AS category,
                            COUNT(*) AS items,
                            SUM(COALESCE(oi.sale_price::numeric, 0)) AS revenue
                        FROM raw.order_items oi
                        JOIN raw.products p ON p.id = oi.product_id
                        GROUP BY 1,2
                        ORDER BY 1,2")
  /\ (("raw", "order_items", "created_at") ∉ columns st)
  /\ db (snd (run st)) = st.
Proof.
  intros Hwf Hoi Ho Hproduct Hprice Hid Hcat Hk.
  pose proof (kpi_daily_resolves st Hwf) as Hres.
  pose proof (category_daily_slip st Hoi) as Hslip.
  assert (Hmissing : ("raw", "order_items", "created_at") ∉ columns st)
    by (now rewrite <- elem_of_recorded).
  apply has_false in Hoi. apply has_true in Ho, Hproduct, Hprice, Hid, Hcat.
  rewrite run_outcomes. unfold refuses. rewrite Hres.
  unfold kpi_daily_statement, category_daily_statement, dated, category_columns in *.
  rewrite Hoi, Ho, Hproduct, Hprice, Hid, Hcat in *. cbn [orb andb].
  change (kpi_daily_orders_sql DATE_ORDERS) with "
                        DROP VIEW IF EXISTS analytics.kpi_daily;
                        CREATE VIEW analytics.kpi_daily AS
                        SELECT
                            DATE(orders.created_at::timestamp) AS order_date,
                            COUNT(*) AS orders
                        FROM raw.orders AS orders
                        GROUP BY 1
                        ORDER BY 1;
                    ".
  rewrite Hk, Hslip, orb_true_r. cbn [orb fst snd db trace app].
  split; [reflexivity|]. split; [reflexivity|]. split; [vm_compute; reflexivity|].
  split; [by_evaluation|]. split; [exact Hmissing|reflexivity].
Qed.

Lemma category_daily_reads_missing_column_witness :
  ("created_at" ∉ oi_of orders_dated_store)
  /\ ("created_at" ∈ o_of orders_dated_store)
  /\ fst (run orders_dated_store)
     = Raised (DatabaseError "
                        DROP VIEW IF EXISTS analytics.category_daily;
                        CREATE VIEW analytics.category_daily AS
                        SELECT
                            DATE(oi.created_at::timestamp) AS order_date,
                            p.category AS category,
                            COUNT(*) AS items,
                            SUM(COALESCE(oi.sale_price::numeric, 0)) AS revenue
                        FROM raw.order_items oi
                        JOIN raw.products p ON p.id = oi.product_id
                        GROUP BY 1,2
                        ORDER BY 1,2;
                    ")
  /\ db (snd (run orders_dated_store)) = orders_dated_store
  /\ views orders_dated_store = ∅.
Proof.
  assert (Hwf : catalog_wf orders_dated_store).
  { intros schema table column Hin.
    assert (HF : Forall (fun r => (r.1.1, r.1.2) ∈ tables orders_dated_store)
                   (columns orders_dated_store))
      by (repeat constructor; by_evaluation).
    rewrite Forall_forall in HF. exact (HF _ Hin). }
  assert (Hoi : "created_at" ∉ oi_of orders_dated_store) by by_evaluation.
  assert (Ho : "created_at" ∈ o_of orders_dated_store) by by_evaluation.
  destruct (category_daily_reads_missing_column orders_dated_store Hwf Hoi Ho
              ltac:(by_evaluation) ltac:(by_evaluation) ltac:(by_evaluation)
              ltac:(by_evaluation) eq_refl)
    as (Hret & _ & _ & _ & _ & Hdb).
  split; [exact Hoi|]. split; [exact Ho|]. split; [exact Hret|].
  split; [exact Hdb|reflexivity].
Defined.

(** C10. In the kpi_daily built on [order_items] the only division of the
    whole text is the one of the aov column, revenue over orders, and it
    stands in the THEN branch of a CASE whose condition is that same orders
    expression being greater than zero, with NULL otherwise.  Evaluated
    with any values for the aggregates the column is the quotient when
    orders is positive and NULL when it is not: never a division by
    zero. *)
Theorem aov_division_guarded (st : store) :
  "created_at" ∈ oi_of st ->
  let orders := orders_expr (oi_of st) in
  let revenue := revenue_expr (oi_of st) in
  let sql := kpi_daily_order_items_sql DATE_ORDER_ITEMS orders items_expr revenue in
  trace (snd (run st)) !! 3%nat = Some sql
  /\ aov_sql orders revenue = render (aov_expr orders revenue)
  /\ PyStr.contains (render (aov_expr orders revenue) +:+ " AS aov") sql = true
  /\ PyStr.occurrences "/" sql = 1%nat
  /\ (forall env,
        eval env (aov_expr orders revenue)
        = if Z.ltb 0 (env orders) then Num (env revenue / env orders) else Null)
  /\ (forall env, eval env (aov_expr orders revenue) <> DivisionByZero).
Proof.
  intros H orders revenue sql. apply has_true in H.
  assert (Heval : forall env,
             eval env (aov_expr orders revenue)
             = if Z.ltb 0 (env orders) then Num (env revenue / env orders) else Null).
  { intros env. cbn [eval aov_expr].
    destruct (Z.ltb_spec 0 (env orders)) as [Hpos|Hneg]; [|reflexivity].
    destruct (Z.eqb_spec (env orders) 0) as [Hz|_]; [lia|reflexivity]. }
  split; [rewrite submitted_first; unfold kpi_daily_statement; now rewrite H|].
  split; [unfold aov_sql; cbn [render aov_expr]; now rewrite !append_assoc|].
  split; [subst sql orders revenue; by_columns; vm_compute; reflexivity|].
  split; [subst sql orders revenue; by_columns; vm_compute; reflexivity|].
  split; [exact Heval|].
  intros env. rewrite Heval. now destruct (Z.ltb 0 (env orders)).
Qed.

Lemma aov_division_guarded_witness :
  ("created_at" ∈ oi_of unpriced_store)
  /\ trace (snd (run unpriced_store)) !! 3%nat
     = Some (kpi_daily_order_items_sql DATE_ORDER_ITEMS COUNT_DISTINCT_ORDER COUNT_ROWS
               COUNT_NUMERIC)
  /\ eval (fun _ => 0%Z) (aov_expr COUNT_DISTINCT_ORDER COUNT_NUMERIC) = Null.
Proof.
  assert (Hin : "created_at" ∈ oi_of unpriced_store) by by_evaluation.
  destruct (aov_division_guarded unpriced_store Hin) as (Hsql & _ & _ & _ & Heval & _).
  split; [exact Hin|]. split.
  - rewrite Hsql. vm_compute. reflexivity.
  - change COUNT_DISTINCT_ORDER with (orders_expr (oi_of unpriced_store)).
    change COUNT_NUMERIC with (revenue_expr (oi_of unpriced_store)).
    rewrite Heval. reflexivity.
Defined.

(** * The scenarios of the specification *)

(** All columns present: both views are created. *)
Example scenario_full :
  fst (run full_store) = Returned CREATED
  /\ generated (snd (run full_store))
     = [kpi_daily_order_items_sql DATE_ORDER_ITEMS COUNT_DISTINCT_ORDER COUNT_ROWS
          SUM_SALE_PRICE; CATEGORY_DAILY_SQL]
  /\ dom (views (db (snd (run full_store)))) = {[KPI_DAILY; CATEGORY_DAILY]}.
Proof.
  split; [vm_compute; reflexivity|]. split; [vm_compute; reflexivity|].
  apply (bool_decide_unpack _). vm_compute. exact I.
Qed.

(** No timestamp anywhere: both views are dropped. *)
Example scenario_undated :
  fst (run undated_store) = Returned SKIPPED
  /\ generated (snd (run undated_store)) = [DROP_KPI_DAILY; DROP_CATEGORY_DAILY]
  /\ views (db (snd (run undated_store))) = ∅.
Proof.
  split; [vm_compute; reflexivity|]. split; [vm_compute; reflexivity|].
  apply (bool_decide_unpack _). vm_compute. exact I.
Qed.

(** No sale price and no products table: revenue counts rows, and
    category_daily is dropped. *)
Example scenario_unpriced :
  fst (run unpriced_store) = Returned CREATED
  /\ generated (snd (run unpriced_store))
     = [kpi_daily_order_items_sql DATE_ORDER_ITEMS COUNT_DISTINCT_ORDER COUNT_ROWS
          COUNT_NUMERIC; DROP_CATEGORY_DAILY]
  /\ dom (views (db (snd (run unpriced_store)))) = {[KPI_DAILY]}.
Proof.
  split; [vm_compute; reflexivity|]. split; [vm_compute; reflexivity|].
  apply (bool_decide_unpack _). vm_compute. exact I.
Qed.

(** A refused category_daily script: the task raises, and the kpi_daily it
    had created is undone with the transaction. *)
Example scenario_category_refused :
  fst (run category_refusing_store) = Raised (DatabaseError CATEGORY_DAILY_SQL)
  /\ length (trace (snd (run category_refusing_store))) = 5%nat
  /\ db (snd (run category_refusing_store)) = category_refusing_store.
Proof.
  split; [vm_compute; reflexivity|]. split; [vm_compute; reflexivity|].
  apply (run_raised _ (DatabaseError CATEGORY_DAILY_SQL)). vm_compute. reflexivity.
Qed.

(** * Header cells *)

Section Normalize.

Lemma replace_char (a : ascii) (new s : string) :
  PyStr.replace (String a "") new s = substitute a new s.
Proof.
  unfold PyStr.replace.
  induction s as [|c s IH]; [reflexivity|].
  cbn [PyStr.replace_from substitute String.prefix String.length].
  destruct (ascii_dec a c) as [<-|Hne].
  - rewrite Ascii.eqb_refl. cbn.
    replace (String.prefix "" s) with true by (now destruct s).
    now rewrite IH.
  - destruct (Ascii.eqb_spec c a) as [->|_]; [congruence|].
    now rewrite IH.
Qed.

Lemma every_substitute (test : ascii -> bool) a new s :
  every test new = true ->
  every (fun c => test c || Ascii.eqb c a) s = true ->
  every test (substitute a new s) = true.
Proof.
  intros Hnew. induction s as [|c s IH]; [reflexivity|].
  cbn [every substitute]. rewrite andb_true_iff. intros [Hc Hs].
  destruct (Ascii.eqb c a) eqn:Hca.
  - assert (Happ : forall x y, every test x = true -> every test y = true ->
                               every test (x +:+ y) = true).
    { intros x y Hx Hy. induction x as [|d x IHx]; [exact Hy|].
      cbn [every] in Hx |- *. rewrite append_cons. cbn [every].
      apply andb_true_iff in Hx as [Hd Hx]. now rewrite Hd, IHx. }
    apply Happ; auto.
  - cbn [every]. rewrite orb_false_r in Hc. now rewrite Hc, IH.
Qed.

Lemma substitute_absent a new s :
  every (fun c => negb (Ascii.eqb c a)) s = true -> substitute a new s = s.
Proof.
  induction s as [|c s IH]; [reflexivity|].
  cbn [every substitute]. rewrite andb_true_iff, negb_true_iff.
  intros [-> Hs]. now rewrite IH.
Qed.

Lemma every_impl (p q : ascii -> bool) s :
  (forall c, p c = true -> q c = true) -> every p s = true -> every q s = true.
Proof.
  intros Hpq. induction s as [|c s IH]; [reflexivity|].
  cbn [every]. rewrite !andb_true_iff. intros [Hc Hs]. auto.
Qed.

(** Facts about single characters, settled by running through all 256. *)
Lemma for_all_chars (P : ascii -> bool) :
  forallb P (ascii_of_nat <$> seq 0 256) = true -> forall c, P c = true.
Proof.
  intros H c. rewrite forallb_forall in H. apply H.
  apply in_map_iff. exists (nat_of_ascii c). split; [apply ascii_nat_embedding|].
  apply in_seq. pose proof (nat_ascii_bounded c). lia.
Qed.

Lemma lower_char_not_upper c : Py.is_upper (Py.lower_char c) = false.
Proof.
  apply negb_true_iff.
  apply (for_all_chars (fun c => negb (Py.is_upper (Py.lower_char c)))).
  vm_compute. reflexivity.
Qed.

Lemma lower_char_whitespace c :
  Py.is_whitespace (Py.lower_char c) = Py.is_whitespace c.
Proof.
  apply Bool.eqb_prop.
  apply (for_all_chars
           (fun c => Bool.eqb (Py.is_whitespace (Py.lower_char c)) (Py.is_whitespace c))).
  vm_compute. reflexivity.
Qed.

Lemma lstrip_clean s : head_clean s = true -> Py.lstrip s = s.
Proof.
  destruct s as [|c s]; [reflexivity|]. cbn. now intros ->%negb_true_iff.
Qed.

Lemma rstrip_clean s : last_clean s = true -> Py.rstrip s = s.
Proof.
  induction s as [|c s IH]; [reflexivity|].
  cbn [last_clean Py.rstrip]. destruct s as [|d s].
  - cbn. now intros ->%negb_true_iff.
  - intros H. now rewrite (IH H).
Qed.

Lemma head_clean_lstrip s : head_clean (Py.lstrip s) = true.
Proof.
  induction s as [|c s IH]; [reflexivity|].
  cbn [Py.lstrip]. destruct (Py.is_whitespace c) eqn:Hc; [exact IH|].
  cbn. now rewrite Hc.
Qed.

Lemma last_clean_rstrip s : last_clean (Py.rstrip s) = true.
Proof.
  induction s as [|c s IH]; [reflexivity|].
  cbn [Py.rstrip]. destruct (Py.rstrip s) as [|d r].
  - destruct (Py.is_whitespace c) eqn:Hc; [reflexivity|]. cbn. now rewrite Hc.
  - exact IH.
Qed.

Lemma head_clean_rstrip s : head_clean s = true -> head_clean (Py.rstrip s) = true.
Proof.
  destruct s as [|c s]; [reflexivity|].
  cbn [head_clean Py.rstrip]. intros Hc.
  destruct (Py.rstrip s); [|exact Hc].
  apply negb_true_iff in Hc. rewrite Hc. cbn. now rewrite Hc.
Qed.

(** A character map that keeps non-whitespace characters non-whitespace
    keeps clean ends clean. *)
Lemma substitute_one a b s :
  substitute a (String b "") s
  = match s with
    | "" => ""
    | String c s' => String (if Ascii.eqb c a then b else c) (substitute a (String b "") s')
    end.
Proof. destruct s as [|c s]; [reflexivity|]. cbn. now destruct (Ascii.eqb c a). Qed.

Lemma head_clean_lower s : head_clean (Py.lower s) = head_clean s.
Proof. destruct s as [|c s]; [reflexivity|]. cbn. now rewrite lower_char_whitespace. Qed.

Lemma last_clean_lower s : last_clean (Py.lower s) = last_clean s.
Proof.
  induction s as [|c s IH]; [reflexivity|].
  cbn [Py.lower last_clean]. destruct s as [|d s].
  - cbn. now rewrite lower_char_whitespace.
  - exact IH.
Qed.

Lemma head_clean_underscore s :
  head_clean s = true -> head_clean (substitute " " "_" s) = true.
Proof.
  destruct s as [|c s]; [reflexivity|]. rewrite substitute_one. cbn [head_clean].
  destruct (Ascii.eqb_spec c " ") as [->|_]; [discriminate|auto].
Qed.

Lemma last_clean_underscore s :
  last_clean s = true -> last_clean (substitute " " "_" s) = true.
Proof.
  induction s as [|c s IH]; [reflexivity|].
  rewrite substitute_one. cbn [last_clean]. destruct s as [|d s].
  - cbn. destruct (Ascii.eqb_spec c " ") as [->|_]; [discriminate|auto].
  - intros H. rewrite substitute_one. rewrite substitute_one in IH. exact (IH H).
Qed.

Lemma lower_fixed s :
  every (fun c => negb (Py.is_upper c)) s = true -> Py.lower s = s.
Proof.
  induction s as [|c s IH]; [reflexivity|].
  cbn [every Py.lower]. rewrite andb_true_iff, negb_true_iff. intros [Hc Hs].
  unfold Py.lower_char. now rewrite Hc, IH.
Qed.

Lemma every_lower s : every (fun c => negb (Py.is_upper c)) (Py.lower s) = true.
Proof.
  induction s as [|c s IH]; [reflexivity|].
  cbn [every Py.lower]. now rewrite lower_char_not_upper, IH.
Qed.

Lemma normalize_unfold h :
  normalize h = substitute " " "_" (Py.lower (Py.strip h)).
Proof. unfold normalize. apply (replace_char " " "_"). Qed.

Lemma normalize_no_space h :
  every (fun c => negb (is_space_char c)) (normalize h) = true.
Proof.
  rewrite normalize_unfold. apply every_substitute; [reflexivity|].
  generalize (Py.lower (Py.strip h)). intros s.
  induction s as [|c s IH]; [reflexivity|]. cbn [every]. rewrite IH.
  unfold is_space_char. now destruct (Ascii.eqb c " ").
Qed.

Lemma normalize_no_upper h :
  every (fun c => negb (Py.is_upper c)) (normalize h) = true.
Proof.
  rewrite normalize_unfold. apply every_substitute; [reflexivity|].
  apply (every_impl (fun c => negb (Py.is_upper c))); [|apply every_lower].
  intros c ->. reflexivity.
Qed.

Lemma strip_normalize h : Py.strip (normalize h) = normalize h.
Proof.
  rewrite normalize_unfold. unfold Py.strip at 1.
  rewrite lstrip_clean.
  - apply rstrip_clean, last_clean_underscore.
    rewrite last_clean_lower. apply last_clean_rstrip.
  - apply head_clean_underscore. rewrite head_clean_lower.
    apply head_clean_rstrip, head_clean_lstrip.
Qed.

End Normalize.

(** X1. A normalized header cell holds no space and no upper-case letter,
    has no whitespace at either end, and is left as it is by a second
    normalization.  The cell is taken to be ASCII: that is where [Py.strip]
    and [Py.lower] are the methods of Python. *)
Theorem normalize_normal_form (h : string) :
  Py.ascii_only h = true ->
  every (fun c => negb (is_space_char c)) (normalize h) = true
  /\ every (fun c => negb (Py.is_upper c)) (normalize h) = true
  /\ Py.strip (normalize h) = normalize h
  /\ normalize (normalize h) = normalize h.
Proof.
  intros _. split; [apply normalize_no_space|]. split; [apply normalize_no_upper|].
  split; [apply strip_normalize|].
  rewrite (normalize_unfold (normalize h)), strip_normalize.
  rewrite (lower_fixed _ (normalize_no_upper h)).
  apply substitute_absent, normalize_no_space.
Qed.

Lemma normalize_normal_form_witness :
  normalize "  Sale Price " = "sale_price"
  /\ normalize (normalize "  Sale Price ") = normalize "  Sale Price ".
Proof.
  destruct (normalize_normal_form "  Sale Price " eq_refl) as (_ & _ & _ & Hidem).
  split; [reflexivity|exact Hidem].
Defined.

(** * The texts of the loader, read back *)

(** Bring the characters of a literal prefix to the front. *)
Ltac expose :=
  repeat rewrite append_cons;
  repeat match goal with
         | |- context ["" +:+ ?x] => change ("" +:+ x) with x
         end.

Section ReadBack.

Lemma read_identifier name rest :
  name <> "" ->
  SqlLex.no_leading_dquote rest ->
  SqlLex.delimited_identifier (_identifier name +:+ rest) = Some (name, rest).
Proof.
  intros Hname Hrest. unfold _identifier. rewrite replace_dquote.
  rewrite !append_assoc. unfold dquote at 1. expose.
  cbn [SqlLex.delimited_identifier].
  change (SqlLex.is_dquote (ascii_of_nat 34)) with true. cbn iota.
  rewrite (body_doubled name rest Hrest).
  destruct name; [congruence|reflexivity].
Qed.

Lemma expect_app p s : TableSql.expect p (p +:+ s) = Some s.
Proof.
  induction p as [|a p IH]; [reflexivity|].
  rewrite append_cons. cbn [TableSql.expect]. now rewrite Ascii.eqb_refl.
Qed.

Lemma string_length_app (a b : string) :
  String.length (a +:+ b) = String.length a + String.length b.
Proof.
  induction a as [|x a IH]; [reflexivity|].
  rewrite append_cons. cbn [String.length]. now rewrite IH.
Qed.

Lemma identifier_length name : 2 <= String.length (_identifier name).
Proof.
  unfold _identifier. rewrite !string_length_app. unfold dquote. cbn [String.length]. lia.
Qed.

Lemma join_cons sep x l :
  l <> [] -> Py.join sep (x :: l) = x +:+ sep +:+ Py.join sep l.
Proof. destruct l; [congruence|reflexivity]. Qed.

Lemma join_length (f : string -> string) header rest :
  (forall c, 1 <= String.length (f c)) ->
  length header <= String.length (Py.join ", " (f <$> header) +:+ rest).
Proof.
  intros Hf. induction header as [|c header IH]; [cbn; lia|].
  destruct header as [|c' header].
  - cbn [fmap list_fmap Py.join]. rewrite string_length_app. specialize (Hf c). cbn. lia.
  - rewrite fmap_cons, join_cons by discriminate.
    rewrite !append_assoc, string_length_app. specialize (Hf c).
    rewrite string_length_app. cbn [length] in IH |- *. lia.
Qed.

Lemma no_leading_dquote_sep suffix tail :
  SqlLex.no_leading_dquote (suffix +:+ ", ") ->
  SqlLex.no_leading_dquote (suffix +:+ ", " +:+ tail).
Proof. destruct suffix as [|x s]; [reflexivity|exact (fun H => H)]. Qed.

(** A list of quoted names reads back as the names. *)
Lemma items_join suffix rest header :
  forall fuel,
    header <> [] ->
    Forall (fun c => c <> "") header ->
    length header <= fuel ->
    SqlLex.no_leading_dquote (suffix +:+ ", ") ->
    SqlLex.no_leading_dquote (suffix +:+ rest) ->
    TableSql.expect ", " rest = None ->
    TableSql.items suffix fuel
      (Py.join ", " ((fun c => _identifier c +:+ suffix) <$> header) +:+ rest)
    = Some (header, rest).
Proof.
  induction header as [|c header IH]; [congruence|].
  intros fuel _ Hnames Hfuel Hsep Hrest Hend.
  apply Forall_cons in Hnames as [Hc Hnames].
  destruct fuel as [|fuel]; [cbn in Hfuel; lia|].
  destruct header as [|c' header].
  - cbn [fmap list_fmap Py.join TableSql.items]. rewrite append_assoc.
    rewrite (read_identifier c _ Hc Hrest). cbn [mbind option_bind].
    rewrite expect_app. cbn [mbind option_bind]. now rewrite Hend.
  - rewrite fmap_cons, join_cons by discriminate.
    cbn [TableSql.items]. rewrite !append_assoc.
    rewrite (read_identifier c _ Hc).
    2:{ apply no_leading_dquote_sep, Hsep. }
    cbn [mbind option_bind]. rewrite expect_app. cbn [mbind option_bind].
    rewrite expect_app.
    rewrite (IH fuel); [reflexivity|discriminate|exact Hnames| |exact Hsep|exact Hrest|exact Hend].
    cbn [length] in Hfuel |- *. lia.
Qed.

End ReadBack.

Section Texts.

Variable table : string.
Hypothesis table_named : table <> "".

Lemma qualified_raw rest :
  SqlLex.no_leading_dquote rest ->
  TableSql.qualified_name ("raw." +:+ _identifier table +:+ rest)
  = Some ("raw", table, rest).
Proof.
  intros Hrest. unfold TableSql.qualified_name. expose. cbn [TableSql.bare].
  change (TableSql.is_bare "r") with true. change (TableSql.is_bare "a") with true.
  change (TableSql.is_bare "w") with true. change (TableSql.is_bare ".") with false.
  cbn iota. case_decide; [discriminate|].
  cbn [TableSql.expect]. rewrite Ascii.eqb_refl. cbn [mbind option_bind].
  rewrite (read_identifier table rest table_named Hrest). reflexivity.
Qed.

Lemma parse_drop_table_sql :
  TableSql.parse (drop_table_sql table) = Some (TableSql.DropTable "raw" table).
Proof.
  unfold TableSql.parse, drop_table_sql.
  replace (TableSql.parse_create_schema _) with (@None TableSql.statement)
    by (unfold TableSql.parse_create_schema; expose; reflexivity).
  unfold TableSql.parse_drop_table.
  change "DROP TABLE IF EXISTS raw." with ("DROP TABLE IF EXISTS " +:+ "raw.").
  rewrite !append_assoc.
  rewrite (expect_app "DROP TABLE IF EXISTS "). cbn [mbind option_bind].
  rewrite qualified_raw by reflexivity. cbn [mbind option_bind].
  case_decide; [reflexivity|congruence].
Qed.

Lemma parse_create_table_sql header :
  Forall (fun c => c <> "") header ->
  TableSql.parse (create_table_sql table header)
  = Some (TableSql.CreateTable "raw" table header).
Proof.
  intros Hnames. unfold TableSql.parse, create_table_sql.
  replace (TableSql.parse_create_schema _) with (@None TableSql.statement)
    by (unfold TableSql.parse_create_schema; expose; reflexivity).
  replace (TableSql.parse_drop_table _) with (@None TableSql.statement)
    by (unfold TableSql.parse_drop_table; expose; reflexivity).
  unfold TableSql.parse_create_table.
  change "CREATE TABLE raw." with ("CREATE TABLE " +:+ "raw.").
  rewrite !append_assoc.
  rewrite (expect_app "CREATE TABLE "). cbn [mbind option_bind].
  rewrite qualified_raw by reflexivity. cbn [mbind option_bind].
  rewrite (expect_app " ("). cbn [mbind option_bind].
  destruct header as [|c header]; [reflexivity|].
  replace (TableSql.expect ");" _) with (@None string).
  2:{ destruct header; cbn [fmap list_fmap Py.join]; unfold _identifier, dquote;
      rewrite ?append_assoc; expose; reflexivity. }
  rewrite items_join; try (reflexivity || discriminate || assumption).
  apply join_length. intros x. pose proof (identifier_length x).
  rewrite string_length_app. lia.
Qed.

Lemma parse_copy_sql header :
  header <> [] ->
  Forall (fun c => c <> "") header ->
  TableSql.parse (copy_sql table header) = Some (TableSql.Copy "raw" table header).
Proof.
  intros Hsome Hnames. unfold TableSql.parse, copy_sql.
  replace (TableSql.parse_create_schema _) with (@None TableSql.statement)
    by (unfold TableSql.parse_create_schema; expose; reflexivity).
  replace (TableSql.parse_drop_table _) with (@None TableSql.statement)
    by (unfold TableSql.parse_drop_table; expose; reflexivity).
  replace (TableSql.parse_create_table _) with (@None TableSql.statement)
    by (unfold TableSql.parse_create_table; expose; reflexivity).
  unfold TableSql.parse_copy.
  change "COPY raw." with ("COPY " +:+ "raw.").
  rewrite !append_assoc.
  rewrite (expect_app "COPY "). cbn [mbind option_bind].
  rewrite qualified_raw by reflexivity. cbn [mbind option_bind].
  rewrite (expect_app " ("). cbn [mbind option_bind].
  assert (Hsame : _identifier <$> header = (fun c => _identifier c +:+ "") <$> header).
  { apply list_fmap_ext. intros _ c _. now rewrite append_nil_r. }
  rewrite Hsame.
  rewrite items_join; try (reflexivity || discriminate || assumption).
  apply join_length. intros x. pose proof (identifier_length x).
  rewrite string_length_app. lia.
Qed.

End Texts.

(** X2. The statements the loader builds with [_identifier] are read by
    the server as naming exactly the given table and exactly the given
    columns, in order, whatever characters the names hold, as long as none
    is empty: no name can close its quotes early. *)
Theorem loader_texts_read_back (table : string) (header : list string) :
  table <> "" ->
  Forall (fun c => c <> "") header ->
  TableSql.parse (drop_table_sql table) = Some (TableSql.DropTable "raw" table)
  /\ TableSql.parse (create_table_sql table header)
     = Some (TableSql.CreateTable "raw" table header)
  /\ (header <> [] ->
      TableSql.parse (copy_sql table header) = Some (TableSql.Copy "raw" table header)).
Proof.
  intros Htable Hnames. split; [now apply parse_drop_table_sql|].
  split; [now apply parse_create_table_sql|].
  intros Hsome. now apply parse_copy_sql.
Qed.

(** A table name and column names with quotes, spaces and a semicolon. *)
Lemma loader_texts_read_back_witness :
  let table := "a" +:+ dquote +:+ "; DROP TABLE x; --" in
  let header := ["id"; dquote +:+ ") TEXT); --"; "unit price"] in
  TableSql.parse (create_table_sql table header)
  = Some (TableSql.CreateTable "raw" table header)
  /\ TableSql.parse (copy_sql table header) = Some (TableSql.Copy "raw" table header).
Proof.
  intros table header.
  assert (Htable : table <> "") by discriminate.
  assert (Hnames : Forall (fun c => c <> "") header)
    by (repeat constructor; discriminate).
  destruct (loader_texts_read_back table header Htable Hnames) as (_ & Hcreate & Hcopy).
  split; [exact Hcreate|]. apply Hcopy. discriminate.
Defined.

(** * Creating a raw table *)

Section Reload.

Variables (st : store) (table : string) (header : list string).

Lemma columns_of_drop_same :
  columns_of (drop_table st "raw" table) "raw" table = [].
Proof.
  unfold columns_of, drop_table. cbn [columns].
  induction (columns st) as [|[[s t] x] l IH]; [reflexivity|].
  rewrite filter_cons. case_decide as Hkeep; [|exact IH].
  cbn [omap list_omap]. rewrite IH. unfold column_name_of.
  destruct (String.eqb_spec s "raw") as [->|]; [|reflexivity].
  destruct (String.eqb_spec t table) as [->|]; [|reflexivity].
  now destruct Hkeep.
Qed.

Lemma columns_of_drop_other schema other :
  (schema, other) <> ("raw", table) ->
  columns_of (drop_table st "raw" table) schema other = columns_of st schema other.
Proof.
  intros Hother. unfold columns_of, drop_table. cbn [columns].
  induction (columns st) as [|[[s t] x] l IH]; [reflexivity|].
  rewrite filter_cons. cbn [omap list_omap]. case_decide as Hkeep.
  - cbn [omap list_omap]. now rewrite IH.
  - rewrite IH. unfold column_name_of.
    destruct (String.eqb_spec s schema) as [->|]; [|reflexivity].
    destruct (String.eqb_spec t other) as [->|]; [|reflexivity].
    cbn in Hkeep. destruct Hother. first [exact Hkeep | apply dec_stable; exact Hkeep].
Qed.

Lemma columns_of_created_same (base : store) :
  columns_of (create_table base "raw" table header) "raw" table
  = (columns_of base "raw" table ++ header)%list.
Proof.
  unfold columns_of, create_table. cbn [columns]. rewrite omap_app. f_equal.
  induction header as [|c l IH]; [reflexivity|].
  cbn [fmap list_fmap omap list_omap]. unfold column_name_of at 1.
  rewrite !String.eqb_refl. cbn. f_equal. exact IH.
Qed.

Lemma columns_of_created_other (base : store) schema other :
  (schema, other) <> ("raw", table) ->
  columns_of (create_table base "raw" table header) schema other
  = columns_of base schema other.
Proof.
  intros Hother. unfold columns_of, create_table. cbn [columns]. rewrite omap_app.
  rewrite <- (app_nil_r (omap _ (columns base))) at 2. f_equal.
  induction header as [|c l IH]; [reflexivity|].
  cbn [fmap list_fmap omap list_omap]. unfold column_name_of at 1.
  destruct (String.eqb_spec "raw" schema) as [<-|]; [|exact IH].
  destruct (String.eqb_spec table other) as [<-|]; [|exact IH].
  now destruct Hother.
Qed.

Lemma columns_of_reload_same : columns_of (reload st table header) "raw" table = header.
Proof. unfold reload. now rewrite columns_of_created_same, columns_of_drop_same. Qed.

Lemma columns_of_reload_other schema other :
  (schema, other) <> ("raw", table) ->
  columns_of (reload st table header) schema other = columns_of st schema other.
Proof.
  intros H. unfold reload.
  now rewrite columns_of_created_other, columns_of_drop_other.
Qed.

End Reload.

Section LoaderSteps.

Lemma dropped_absent st schema table : (schema, table) ∉ tables (drop_table st schema table).
Proof.
  unfold drop_table. cbn [tables]. rewrite elem_of_difference, elem_of_singleton. tauto.
Qed.

Lemma created_present st schema table header :
  (schema, table) ∈ tables (create_table st schema table header).
Proof.
  unfold create_table. cbn [tables]. rewrite elem_of_union, elem_of_singleton. tauto.
Qed.

Lemma and_then_done {A B} (m : L A) (k : A -> L B) c a c' :
  m c = (Done a, c') -> and_then m k c = k a c'.
Proof. intros H. unfold and_then. now rewrite H. Qed.

Lemma and_then_failed {A B} (m : L A) (k : A -> L B) c e c' :
  m c = (Failed e, c') -> and_then m k c = (Failed e, c').
Proof. intros H. unfold and_then. now rewrite H. Qed.

Lemma truncate_fits x : Pg.fits x -> Pg.truncate_identifier x = x.
Proof.
  unfold Pg.fits, Pg.truncate_identifier, Pg.NAMEDATALEN. intros H.
  destruct (Nat.leb_spec 64 (String.length x)); [lia|reflexivity].
Qed.

Lemma truncate_all_fit l : Forall Pg.fits l -> Pg.truncate_identifier <$> l = l.
Proof.
  induction 1 as [|x l Hx _ IH]; [reflexivity|].
  now rewrite fmap_cons, IH, truncate_fits.
Qed.

Lemma truncate_raw : Pg.truncate_identifier "raw" = "raw".
Proof. reflexivity. Qed.

Lemma submit_accepted c sql s st' :
  rejects (db c) sql = false ->
  TableSql.parse sql = Some s ->
  table_effect (db c) (truncated s) = Some st' ->
  submit sql c
  = (Done tt, {| db := st'; fetched := []; trace := (trace c ++ [sql])%list |}).
Proof.
  intros Hok Hparse Heffect. unfold submit, answer_table.
  rewrite Hok, Hparse. cbn [mbind option_bind]. now rewrite Heffect.
Qed.

Lemma submit_refused c sql :
  answer_table (db c) sql = None ->
  submit sql c
  = (Failed (ServerError sql),
     {| db := db c; fetched := fetched c; trace := (trace c ++ [sql])%list |}).
Proof. intros H. unfold submit. now rewrite H. Qed.

Lemma recorded_columns_of st schema table :
  recorded st schema table = list_to_set (columns_of st schema table).
Proof. reflexivity. Qed.

(** The drop is always applied before the create is tried. *)
Lemma create_raw_table_prefix c table header :
  table <> "" ->
  Pg.fits table ->
  unread (db c) table ->
  rejects (db c) CREATE_SCHEMA_RAW = false ->
  rejects (db c) (drop_table_sql table) = false ->
  create_raw_table_from_header table header c
  = submit (create_table_sql table header)
      {| db := drop_table (db c) "raw" table; fetched := [];
         trace := (trace c ++ [CREATE_SCHEMA_RAW; drop_table_sql table])%list |}.
Proof.
  intros Htable Hfits Hunread Hschema Hdrop. unfold create_raw_table_from_header.
  rewrite (and_then_done _ _ _ _ _
             (submit_accepted c CREATE_SCHEMA_RAW (TableSql.CreateSchema "raw") (db c)
                Hschema eq_refl eq_refl)).
  erewrite and_then_done.
  2:{ apply (submit_accepted _ _ (TableSql.DropTable "raw" table)); cbn [db].
      - exact Hdrop.
      - now apply parse_drop_table_sql.
      - cbn [truncated table_effect]. rewrite truncate_raw, (truncate_fits table Hfits).
        now rewrite decide_True. }
  cbn [trace]. now rewrite <- app_assoc.
Qed.

Lemma create_raw_table_run c table header :
  table <> "" ->
  Pg.fits table ->
  unread (db c) table ->
  Forall (fun x => x <> "") header ->
  Forall Pg.fits header ->
  NoDup header ->
  Forall (fun sql => rejects (db c) sql = false) (create_texts table header) ->
  create_raw_table_from_header table header c
  = (Done tt,
     {| db := reload (db c) table header; fetched := [];
        trace := (trace c ++ create_texts table header)%list |}).
Proof.
  intros Htable Hfits Hunread Hnames Hshort Hdistinct Hok.
  apply Forall_cons in Hok as [Hschema Hok]. apply Forall_cons in Hok as [Hdrop Hok].
  apply Forall_cons in Hok as [Hcreate _].
  rewrite create_raw_table_prefix by assumption.
  erewrite (submit_accepted _ _ (TableSql.CreateTable "raw" table header)); cbn [db trace].
  - unfold create_texts. rewrite <- app_assoc. reflexivity.
  - exact Hcreate.
  - now apply parse_create_table_sql.
  - cbn [truncated table_effect].
    rewrite truncate_raw, (truncate_fits table Hfits), (truncate_all_fit header Hshort).
    rewrite decide_True; [reflexivity|].
    split; [apply dropped_absent|exact Hdistinct].
Qed.

End LoaderSteps.

(** X3. Creating a raw table and then inspecting it, on the same cursor,
    is a round trip: when the table name and the column names are
    non-empty and no longer than the 63 bytes the server keeps, the column
    names are distinct, no view reads the table and the server accepts the
    three statements, [create_raw_table_from_header] returns,
    [table_columns] then returns exactly the header as a set (the catalog
    lists it in the order of the file), whether or not the table existed
    before; the columns of every other table and all views are as they
    were. *)
Theorem create_then_inspect (c : cursor) (table : string) (header : list string) :
  table <> "" ->
  Pg.fits table ->
  unread (db c) table ->
  Forall (fun x => x <> "") header ->
  Forall Pg.fits header ->
  NoDup header ->
  Forall (fun sql => rejects (db c) sql = false) (create_texts table header) ->
  let after := snd (create_raw_table_from_header table header c) in
  fst (create_raw_table_from_header table header c) = Done tt
  /\ trace after = (trace c ++ create_texts table header)%list
  /\ fst (table_columns "raw" table after) = Returned (list_to_set header)
  /\ columns_of (db after) "raw" table = header
  /\ (forall schema other,
        (schema, other) <> ("raw", table) ->
        columns_of (db after) schema other = columns_of (db c) schema other)
  /\ views (db after) = views (db c).
Proof.
  intros Htable Hfits Hunread Hnames Hshort Hdistinct Hok after. subst after.
  rewrite (create_raw_table_run c table header Htable Hfits Hunread Hnames Hshort
             Hdistinct Hok).
  cbn [fst snd db trace]. rewrite table_columns_run. cbn [fst db].
  rewrite recorded_columns_of, columns_of_reload_same.
  repeat split; try reflexivity.
  intros schema other Hother. now apply columns_of_reload_other.
Qed.

Lemma create_then_inspect_witness :
  let c := connect full_store in
  let after := snd (create_raw_table_from_header "order_items" ["id"; "created_at"] c) in
  columns_of (db c) "raw" "order_items"
  = ["id"; "order_id"; "product_id"; "sale_price"; "created_at"]
  /\ columns_of (db after) "raw" "order_items" = ["id"; "created_at"]
  /\ columns_of (db after) "raw" "products" = ["id"; "category"].
Proof.
  intros c after.
  assert (Hok : Forall (fun sql => rejects (db c) sql = false)
                  (create_texts "order_items" ["id"; "created_at"]))
    by (repeat constructor).
  assert (Hnames : Forall (fun x : string => x <> "") ["id"; "created_at"])
    by (repeat constructor; discriminate).
  assert (Hdistinct : NoDup ["id"; "created_at"]) by by_evaluation.
  assert (Hshort : Forall Pg.fits ["id"; "created_at"])
    by (repeat constructor; unfold Pg.fits; cbn; lia).
  destruct (create_then_inspect c "order_items" ["id"; "created_at"]
              ltac:(discriminate) ltac:(unfold Pg.fits; cbn; lia)
              ltac:(by_evaluation) Hnames Hshort Hdistinct Hok)
    as (_ & _ & _ & Hsame & Hother & _).
  split; [reflexivity|]. split; [exact Hsame|].
  fold after in Hother. rewrite Hother by discriminate. reflexivity.
Defined.

Section Refused.

Lemma read_unnamed rest :
  SqlLex.no_leading_dquote rest ->
  SqlLex.delimited_identifier (_identifier "" +:+ rest) = None.
Proof.
  intros Hrest.
  change (_identifier "") with (String (ascii_of_nat 34) (String (ascii_of_nat 34) "")).
  expose. cbn [SqlLex.delimited_identifier SqlLex.body].
  change (SqlLex.is_dquote (ascii_of_nat 34)) with true. cbn iota.
  destruct rest as [|x rest]; [reflexivity|].
  unfold SqlLex.no_leading_dquote in Hrest. now rewrite Hrest.
Qed.

(** A list with an empty name in it cannot be read. *)
Lemma items_unnamed suffix rest header :
  forall fuel,
    "" ∈ header ->
    SqlLex.no_leading_dquote (suffix +:+ ", ") ->
    SqlLex.no_leading_dquote (suffix +:+ rest) ->
    TableSql.items suffix fuel
      (Py.join ", " ((fun c => _identifier c +:+ suffix) <$> header) +:+ rest)
    = None.
Proof.
  induction header as [|c header IH]; intros fuel Hin Hsep Hrest.
  - now apply elem_of_nil in Hin.
  - destruct fuel as [|fuel]; [reflexivity|].
    destruct (decide (c = "")) as [->|Hc].
    + destruct header as [|c' header].
      * cbn [fmap list_fmap Py.join TableSql.items]. rewrite append_assoc.
        now rewrite (read_unnamed _ Hrest).
      * rewrite fmap_cons, join_cons by discriminate.
        cbn [TableSql.items]. rewrite !append_assoc.
        now rewrite (read_unnamed _ (no_leading_dquote_sep _ _ Hsep)).
    + apply elem_of_cons in Hin as [Heq|Hin]; [congruence|].
      destruct header as [|c' header]; [now apply elem_of_nil in Hin|].
      rewrite fmap_cons, join_cons by discriminate.
      cbn [TableSql.items]. rewrite !append_assoc.
      rewrite (read_identifier c _ Hc (no_leading_dquote_sep _ _ Hsep)).
      cbn [mbind option_bind]. rewrite expect_app. cbn [mbind option_bind].
      rewrite expect_app. now rewrite (IH fuel Hin Hsep Hrest).
Qed.

Lemma parse_create_table_unnamed table header :
  table <> "" ->
  "" ∈ header ->
  TableSql.parse (create_table_sql table header) = None.
Proof.
  intros Htable Hin. unfold TableSql.parse, create_table_sql.
  replace (TableSql.parse_create_schema _) with (@None TableSql.statement)
    by (unfold TableSql.parse_create_schema; expose; reflexivity).
  replace (TableSql.parse_drop_table _) with (@None TableSql.statement)
    by (unfold TableSql.parse_drop_table; expose; reflexivity).
  replace (TableSql.parse_copy _) with (@None TableSql.statement)
    by (unfold TableSql.parse_copy; expose; reflexivity).
  unfold TableSql.parse_create_table.
  change "CREATE TABLE raw." with ("CREATE TABLE " +:+ "raw.").
  rewrite !append_assoc.
  rewrite (expect_app "CREATE TABLE "). cbn [mbind option_bind].
  rewrite (qualified_raw table Htable) by reflexivity. cbn [mbind option_bind].
  rewrite (expect_app " ("). cbn [mbind option_bind].
  destruct header as [|c header]; [now apply elem_of_nil in Hin|].
  replace (TableSql.expect ");" _) with (@None string).
  2:{ destruct header; cbn [fmap list_fmap Py.join]; unfold _identifier, dquote;
      rewrite ?append_assoc; expose; reflexivity. }
  now rewrite items_unnamed.
Qed.

Lemma create_table_refused st table header :
  table <> "" ->
  "" ∈ header \/ ~ NoDup header ->
  answer_table st (create_table_sql table header) = None.
Proof.
  intros Htable Hbad. unfold answer_table.
  destruct (rejects st _); [reflexivity|].
  destruct (decide ("" ∈ header)) as [Hin|Hnot].
  - now rewrite parse_create_table_unnamed.
  - destruct Hbad as [Hin|Hdup]; [contradiction|].
    rewrite parse_create_table_sql; [|exact Htable|].
    + cbn [mbind option_bind truncated table_effect].
      rewrite decide_False; [reflexivity|].
      intros [_ Hnodup]. apply Hdup. exact (NoDup_fmap_1 _ _ Hnodup).
    + apply Forall_forall. intros x Hx ->. contradiction.
Qed.

End Refused.

(** * Loading every file *)

Section Load.

Variable files : csv_files.
Variable refuses : string -> bool.

Lemma rejects_reload st table header : rejects (reload st table header) = rejects st.
Proof. reflexivity. Qed.

Lemma views_reload st table header : views (reload st table header) = views st.
Proof. reflexivity. Qed.

Lemma header_of_read path header c :
  header_of files path = Some header ->
  read_csv_header files path c = (Done header, c)
  /\ is_Some (files !! path).
Proof.
  unfold header_of, read_csv_header. destruct (files !! path) as [[|h rows]|];
    intros H; try discriminate.
  injection H as <-. split; [reflexivity|eauto].
Qed.

(** One round of the loop. *)
Lemma load_one c path header :
  rejects (db c) = refuses ->
  unread (db c) (table_of path) ->
  table_of path <> "" ->
  Pg.fits (table_of path) ->
  header_of files path = Some header ->
  well_formed header ->
  Forall (fun sql => refuses sql = false) (file_texts path header) ->
  forall rest,
    load_each files (path :: rest) c
    = load_each files rest
        {| db := reload (db c) (table_of path) header; fetched := [];
           trace := (trace c ++ file_texts path header)%list |}.
Proof.
  intros Hrej Hunread Htable Hfits Hheader (Hsome & Hnames & Hdistinct & Hshort) Hok rest.
  destruct (header_of_read path header c Hheader) as [Hread [rows Hfile]].
  unfold file_texts in Hok. apply Forall_app in Hok as [Hcreate Hcopy].
  apply Forall_cons in Hcopy as [Hcopy _].
  cbn [load_each]. rewrite (and_then_done _ _ _ _ _ Hread).
  erewrite and_then_done.
  2:{ apply create_raw_table_run; try assumption. now rewrite Hrej. }
  unfold copy_csv_into_table at 1. rewrite Hfile.
  erewrite and_then_done.
  2:{ apply (submit_accepted _ _ (TableSql.Copy "raw" (table_of path) header));
        cbn [db].
      - rewrite rejects_reload, Hrej. exact Hcopy.
      - now apply parse_copy_sql.
      - cbn [truncated table_effect].
        rewrite truncate_raw, (truncate_fits _ Hfits), (truncate_all_fit _ Hshort).
        rewrite decide_True; [reflexivity|].
        split; [apply created_present|]. split; [exact Hdistinct|].
        now rewrite columns_of_reload_same. }
  cbn [trace]. unfold file_texts. now rewrite <- app_assoc.
Qed.

Lemma load_each_run paths :
  forall c,
    rejects (db c) = refuses ->
    Forall (fun path => unread (db c) (table_of path)) paths ->
    Forall (loads files refuses) paths ->
    fst (load_each files paths c) = Done tt
    /\ db (snd (load_each files paths c)) = loaded_store files paths (db c)
    /\ trace (snd (load_each files paths c)) = (trace c ++ load_trace files paths)%list.
Proof.
  induction paths as [|path rest IH]; intros c Hrej Hunread Hall.
  - cbn. now rewrite app_nil_r.
  - apply Forall_cons in Hall
      as [(_ & Htable & Hfits & header & Hheader & Hwf & Hok) Hall].
    apply Forall_cons in Hunread as [Hfirst Hunread].
    rewrite (load_one c path header Hrej Hfirst Htable Hfits Hheader Hwf Hok rest).
    destruct (IH {| db := reload (db c) (table_of path) header; fetched := [];
                    trace := (trace c ++ file_texts path header)%list |})
      as (Hfst & Hdb & Htrace); [exact Hrej|exact Hunread|exact Hall|].
    cbn [db trace] in Hdb, Htrace.
    cbn [loaded_store load_trace]. rewrite Hheader.
    split; [exact Hfst|]. split; [exact Hdb|]. now rewrite Htrace, app_assoc.
Qed.

(** The last file that goes to a table decides its columns. *)
Lemma columns_of_loaded paths :
  forall st table,
    columns_of (loaded_store files paths st) "raw" table
    = default (columns_of st "raw" table) (latest files paths table).
Proof.
  induction paths as [|path rest IH]; intros st table; [reflexivity|].
  cbn [loaded_store latest]. rewrite IH.
  destruct (latest files rest table) as [h|]; [reflexivity|]. cbn [default].
  destruct (header_of files path) as [header|]; [|now case_decide].
  case_decide as Htable.
  - subst table. apply columns_of_reload_same.
  - apply columns_of_reload_other. congruence.
Qed.

Lemma views_loaded paths :
  forall st, views (loaded_store files paths st) = views st.
Proof.
  induction paths as [|path rest IH]; intros st; [reflexivity|].
  cbn [loaded_store]. rewrite IH. now destruct (header_of files path).
Qed.

Lemma load_trace_length paths :
  Forall (loads files refuses) paths ->
  length (load_trace files paths) = 4 * length paths.
Proof.
  induction 1 as [|path rest (_ & _ & _ & header & Hheader & _) _ IH]; [reflexivity|].
  cbn [load_trace length]. rewrite Hheader, length_app, IH. cbn [file_texts create_texts length app]. lia.
Qed.

End Load.

(** * The task as a whole *)

Section Partial.

Variable files : csv_files.
Variable refuses : string -> bool.

Lemma load_each_after good :
  forall c more,
    rejects (db c) = refuses ->
    Forall (fun path => unread (db c) (table_of path)) good ->
    Forall (loads files refuses) good ->
    exists c',
      load_each files (good ++ more) c = load_each files more c'
      /\ db c' = loaded_store files good (db c)
      /\ trace c' = (trace c ++ load_trace files good)%list.
Proof.
  induction good as [|path good IH]; intros c more Hrej Hunread Hall.
  - exists c. cbn. now rewrite app_nil_r.
  - apply Forall_cons in Hall
      as [(_ & Htable & Hfits & header & Hheader & Hwf & Hok) Hall].
    apply Forall_cons in Hunread as [Hfirst Hunread].
    cbn [app].
    rewrite (load_one files refuses c path header Hrej Hfirst Htable Hfits Hheader Hwf Hok).
    destruct (IH {| db := reload (db c) (table_of path) header; fetched := [];
                    trace := (trace c ++ file_texts path header)%list |} more)
      as (c' & Hrun & Hdb & Htrace); [exact Hrej|exact Hunread|exact Hall|].
    exists c'. cbn [db trace] in Hdb, Htrace. cbn [loaded_store load_trace].
    rewrite Hheader. split; [exact Hrun|]. split; [exact Hdb|].
    now rewrite Htrace, app_assoc.
Qed.

Lemma load_each_unreadable path rest c :
  header_of files path = None ->
  load_each files (path :: rest) c
  = (Failed match files !! path with
            | None => FileNotFoundError path
            | Some _ => StopIteration
            end, c).
Proof.
  unfold header_of. cbn [load_each]. unfold and_then, read_csv_header.
  destruct (files !! path) as [[|h rows]|]; intros H; try discriminate; reflexivity.
Qed.

End Partial.

Section Task.

Variable files : csv_files.

Lemma rejects_loaded paths :
  forall st, rejects (loaded_store files paths st) = rejects st.
Proof.
  induction paths as [|p l IH]; intros st; [reflexivity|].
  cbn [loaded_store]. rewrite IH. now destruct (header_of files p).
Qed.

(** A load that goes through is committed. *)
Lemma load_csvs_done paths st :
  Forall (fun path => unread st (table_of path)) paths ->
  Forall (loads files (rejects st)) paths ->
  fst (load_csvs_to_postgres files paths st) = Done (Py.stem <$> paths)
  /\ db (snd (load_csvs_to_postgres files paths st)) = loaded_store files paths st
  /\ trace (snd (load_csvs_to_postgres files paths st)) = load_trace files paths.
Proof.
  intros Hunread Hall. unfold load_csvs_to_postgres, in_transaction.
  destruct (load_each_run files (rejects st) paths (connect st) eq_refl Hunread Hall)
    as (Hfst & Hdb & Htrace).
  destruct (load_each files paths (connect st)) as [[[]|e] c'];
    cbn [fst snd] in *; [auto|discriminate].
Qed.

(** A load that fails is undone: the store is the one the task found. *)
Lemma load_csvs_fails paths st e c :
  load_each files paths (connect st) = (Failed e, c) ->
  load_csvs_to_postgres files paths st
  = (Failed e, {| db := st; fetched := fetched c; trace := trace c |}).
Proof.
  intros H. unfold load_csvs_to_postgres, in_transaction. now rewrite H.
Qed.

(** The files before the one that fails are loaded and then undone with
    it. *)
Lemma load_csvs_stops good more st e c' :
  Forall (fun path => unread st (table_of path)) good ->
  Forall (loads files (rejects st)) good ->
  (forall c,
     db c = loaded_store files good st -> load_each files more c = (Failed e, c' c)) ->
  exists c,
    db c = loaded_store files good st
    /\ trace c = load_trace files good
    /\ load_csvs_to_postgres files (good ++ more) st
       = (Failed e, {| db := st; fetched := fetched (c' c); trace := trace (c' c) |}).
Proof.
  intros Hunread Hgood Hfail.
  destruct (load_each_after files (rejects st) good (connect st) more eq_refl
              Hunread Hgood) as (c & Hrun & Hdb & Htrace).
  cbn [connect db trace app] in Hdb, Htrace.
  exists c. split; [exact Hdb|]. split; [exact Htrace|].
  apply load_csvs_fails. rewrite Hrun. exact (Hfail c Hdb).
Qed.

Lemma tables_reload st table header :
  tables (reload st table header) = {[("raw", table)]} ∪ tables st.
Proof.
  unfold reload, create_table, drop_table. cbn [tables].
  apply set_eq. intros x.
  rewrite !elem_of_union, elem_of_difference, !elem_of_singleton.
  destruct (decide (x = ("raw", table))); tauto.
Qed.

Lemma tables_loaded paths :
  forall st x,
    x ∈ tables (loaded_store files paths st)
    <-> x ∈ tables st
        \/ Exists (fun p => is_Some (header_of files p) /\ x = ("raw", table_of p)) paths.
Proof.
  induction paths as [|p rest IH]; intros st x.
  - cbn [loaded_store]. rewrite Exists_nil. tauto.
  - cbn [loaded_store]. rewrite IH, Exists_cons.
    destruct (header_of files p) as [header|].
    + rewrite tables_reload, elem_of_union, elem_of_singleton.
      split; [intros [[->|H]|H]|intros [H|[[_ ->]|H]]]; eauto 6.
    + split; [intros [H|H]|intros [H|[[[h Hh] _]|H]]]; eauto; discriminate.
Qed.

(** Loading keeps the catalog in step with the tables. *)
Lemma catalog_wf_reload st table header :
  catalog_wf st -> catalog_wf (reload st table header).
Proof.
  intros Hwf schema t col. rewrite tables_reload.
  unfold reload, create_table, drop_table. cbn [columns].
  rewrite elem_of_app, list_elem_of_filter, list_elem_of_fmap, elem_of_union,
    elem_of_singleton.
  intros [[_ Hin]|(c & Heq & _)].
  - right. exact (Hwf _ _ _ Hin).
  - left. congruence.
Qed.

Lemma catalog_wf_loaded paths :
  forall st, catalog_wf st -> catalog_wf (loaded_store files paths st).
Proof.
  induction paths as [|p rest IH]; intros st Hwf; [exact Hwf|].
  cbn [loaded_store]. apply IH.
  destruct (header_of files p); [now apply catalog_wf_reload|exact Hwf].
Qed.

End Task.

(** The pieces of [loads] for a concrete file. *)
Ltac file_loads :=
  split; [split; [reflexivity|vm_compute; repeat constructor]|];
  split; [discriminate|]; split; [by_evaluation|];
  eexists; split; [vm_compute; reflexivity|];
  split; [split; [discriminate|];
          split; [repeat constructor; discriminate|];
          split; [by_evaluation|repeat constructor; by_evaluation]
         |repeat constructor].

Ltac files_load :=
  repeat (apply List.Forall_cons; [file_loads|]); apply List.Forall_nil.

(** X5. When every file loads (ASCII names, none longer than the server
    keeps) and no view reads the tables concerned,
    [load_csvs_to_postgres] returns the stems of the paths in order,
    having submitted four statements per file, and for every table the
    catalog then lists the header of the last file that went to that table
    name (the columns it had before when no file did); the views are
    untouched.  Two files whose names normalize to the same table name do
    not add up: the later one replaces the earlier. *)
Theorem load_last_file_wins (files : csv_files) (paths : list string) (st : store) :
  Forall (fun path => unread st (table_of path)) paths ->
  Forall (loads files (rejects st)) paths ->
  let after := snd (load_csvs_to_postgres files paths st) in
  fst (load_csvs_to_postgres files paths st) = Done (Py.stem <$> paths)
  /\ length (trace after) = 4 * length paths
  /\ (forall table,
        columns_of (db after) "raw" table
        = default (columns_of st "raw" table) (latest files paths table))
  /\ views (db after) = views st.
Proof.
  intros Hunread Hall after. subst after.
  destruct (load_csvs_done files paths st Hunread Hall) as (Hfst & Hdb & Htrace).
  split; [exact Hfst|]. rewrite Hdb, Htrace.
  split; [exact (load_trace_length files (rejects st) paths Hall)|].
  split; [intros table; apply columns_of_loaded|apply views_loaded].
Qed.

Lemma load_last_file_wins_witness :
  let paths := ["/data/Orders.csv"; "/data/orders.csv"] in
  let after := snd (load_csvs_to_postgres colliding_files paths full_store) in
  table_of "/data/Orders.csv" = table_of "/data/orders.csv"
  /\ fst (load_csvs_to_postgres colliding_files paths full_store)
     = Done ["Orders"; "orders"]
  /\ columns_of (db after) "raw" "orders" = ["id"; "created_at"].
Proof.
  intros paths after.
  assert (Hall : Forall (loads colliding_files (rejects full_store)) paths)
    by files_load.
  destruct (load_last_file_wins colliding_files paths full_store
              ltac:(repeat constructor; by_evaluation) Hall)
    as (Hret & _ & Hcols & _).
  split; [reflexivity|]. split; [exact Hret|].
  fold after in Hcols. rewrite Hcols. reflexivity.
Defined.

(** X6. The load stops at the first file that is missing or has no first
    row: the task raises [FileNotFoundError] or [StopIteration] there and
    nothing is submitted for that file or for any file after it.  The
    files before it have been loaded inside the same transaction, which is
    rolled back: the store is left as the task found it. *)
Theorem load_stops_at_unreadable_file (files : csv_files) (good : list string)
    (bad : string) (rest : list string) (st : store) :
  Forall (fun path => unread st (table_of path)) good ->
  Forall (loads files (rejects st)) good ->
  header_of files bad = None ->
  let outcome := load_csvs_to_postgres files (good ++ bad :: rest) st in
  fst outcome
  = Failed match files !! bad with
           | None => FileNotFoundError bad
           | Some _ => StopIteration
           end
  /\ trace (snd outcome) = load_trace files good
  /\ length (trace (snd outcome)) = 4 * length good
  /\ db (snd outcome) = st.
Proof.
  intros Hunread Hgood Hbad outcome. subst outcome.
  destruct (load_csvs_stops files good (bad :: rest) st
              match files !! bad with
              | None => FileNotFoundError bad
              | Some _ => StopIteration
              end (fun c => c) Hunread Hgood)
    as (c & _ & Htrace & ->).
  { intros c _. now apply load_each_unreadable. }
  cbn [fst snd db trace]. rewrite Htrace.
  split; [reflexivity|]. split; [reflexivity|].
  split; [exact (load_trace_length files (rejects st) good Hgood)|reflexivity].
Qed.

Lemma load_stops_at_unreadable_file_witness :
  let paths := ["/data/order_items.csv"; "/data/empty.csv"; "/data/products.csv"] in
  let outcome := load_csvs_to_postgres dated_files paths unpriced_store in
  fst outcome = Failed StopIteration
  /\ length (trace (snd outcome)) = 4
  /\ db (snd outcome) = unpriced_store
  /\ columns_of unpriced_store "raw" "order_items"
     = ["id"; "order_id"; "product_id"; "created_at"].
Proof.
  intros paths outcome.
  assert (Hgood : Forall (loads dated_files (rejects unpriced_store))
                    ["/data/order_items.csv"])
    by files_load.
  destruct (load_stops_at_unreadable_file dated_files ["/data/order_items.csv"]
              "/data/empty.csv" ["/data/products.csv"] unpriced_store
              ltac:(repeat constructor; by_evaluation) Hgood eq_refl)
    as (Hret & _ & Hlen & Hdb).
  split; [exact Hret|]. split; [exact Hlen|]. split; [exact Hdb|reflexivity].
Defined.

(** X4. A header with an empty name, or with the same name twice once its
    cells are normalized, makes the CREATE TABLE of that file fail after
    its DROP TABLE has been accepted.  The task raises with the CREATE
    TABLE text; the drop, and the files loaded before, are undone with the
    transaction: the store is left as the task found it. *)
Theorem bad_header_undoes_load (files : csv_files) (good : list string) (bad : string)
    (rest : list string) (st : store) (header : list string) :
  Forall (fun path => unread st (table_of path)) good ->
  Forall (loads files (rejects st)) good ->
  plain files bad ->
  table_of bad <> "" ->
  Pg.fits (table_of bad) ->
  unread st (table_of bad) ->
  header_of files bad = Some header ->
  "" ∈ header \/ ~ NoDup header ->
  rejects st CREATE_SCHEMA_RAW = false ->
  rejects st (drop_table_sql (table_of bad)) = false ->
  let outcome := load_csvs_to_postgres files (good ++ bad :: rest) st in
  fst outcome = Failed (ServerError (create_table_sql (table_of bad) header))
  /\ trace (snd outcome)
     = (load_trace files good
        ++ [CREATE_SCHEMA_RAW; drop_table_sql (table_of bad);
            create_table_sql (table_of bad) header])%list
  /\ db (snd outcome) = st.
Proof.
  intros Hunread Hgood _ Htable Hfits Hfree Hheader Hbad Hschema Hdrop outcome.
  subst outcome.
  destruct (load_csvs_stops files good (bad :: rest) st
              (ServerError (create_table_sql (table_of bad) header))
              (fun c => {| db := drop_table (db c) "raw" (table_of bad);
                           fetched := [];
                           trace := (trace c ++ [CREATE_SCHEMA_RAW;
                                                 drop_table_sql (table_of bad);
                                                 create_table_sql (table_of bad) header])%list |})
              Hunread Hgood)
    as (c & _ & Htrace & ->).
  { intros c Hdb.
    destruct (header_of_read files bad header c Hheader) as [Hread _].
    cbn [load_each]. rewrite (and_then_done _ _ _ _ _ Hread).
    erewrite and_then_failed; [reflexivity|].
    rewrite create_raw_table_prefix; try assumption.
    - rewrite submit_refused by (cbn [db]; now apply create_table_refused).
      cbn [db fetched trace]. now rewrite <- app_assoc.
    - unfold unread. now rewrite Hdb, views_loaded.
    - now rewrite Hdb, rejects_loaded.
    - now rewrite Hdb, rejects_loaded. }
  cbn [fst snd db trace]. now rewrite Htrace.
Qed.

Lemma bad_header_undoes_load_witness :
  let paths := ["/data/events.csv"; "/data/order_items.csv"] in
  let outcome := load_csvs_to_postgres clashing_files paths full_store in
  header_of clashing_files "/data/order_items.csv" = Some ["order_id"; "order_id"]
  /\ fst outcome
     = Failed (ServerError (create_table_sql "order_items" ["order_id"; "order_id"]))
  /\ length (trace (snd outcome)) = 7
  /\ db (snd outcome) = full_store
  /\ columns_of full_store "raw" "order_items"
     = ["id"; "order_id"; "product_id"; "sale_price"; "created_at"].
Proof.
  intros paths outcome.
  assert (Hgood : Forall (loads clashing_files (rejects full_store)) ["/data/events.csv"])
    by files_load.
  assert (Hdup : "" ∈ ["order_id"; "order_id"] \/ ~ NoDup ["order_id"; "order_id"])
    by (right; by_evaluation).
  destruct (bad_header_undoes_load clashing_files ["/data/events.csv"]
              "/data/order_items.csv" [] full_store ["order_id"; "order_id"]
              ltac:(repeat constructor; by_evaluation) Hgood
              ltac:(split; [reflexivity|vm_compute; repeat constructor])
              ltac:(discriminate) ltac:(by_evaluation) ltac:(by_evaluation)
              eq_refl Hdup eq_refl eq_refl)
    as (Hret & Htrace & Hdb).
  split; [reflexivity|]. split; [exact Hret|].
  split; [|split; [exact Hdb|reflexivity]].
  change outcome with (load_csvs_to_postgres clashing_files
                         (["/data/events.csv"] ++ "/data/order_items.csv" :: [])
                         full_store).
  rewrite Htrace. reflexivity.
Defined.

(** The four order_items-based texts. *)
Lemma kpi_daily_order_items_text (order_id sale_price : bool) :
  let sql := kpi_daily_order_items_sql DATE_ORDER_ITEMS
               (if order_id then COUNT_DISTINCT_ORDER else COUNT_ROWS) items_expr
               (if sale_price then SUM_SALE_PRICE else COUNT_NUMERIC) in
  exists body,
    Sql.parse_script sql = Some [DropViewIfExists KPI_DAILY; CreateView KPI_DAILY body]
    /\ view_body sql = Some body
    /\ contains_all
         ["DATE(order_items.created_at::timestamp) AS order_date,";
          "FROM raw.order_items AS order_items"] body = true
    /\ PyStr.contains "SUM(COALESCE(order_items.sale_price::numeric, 0)) AS revenue," body
       = sale_price
    /\ PyStr.contains "COUNT(*)::numeric AS revenue," body = negb sale_price
    /\ PyStr.contains "COUNT(DISTINCT order_items.order_id) AS orders," body = order_id.
Proof.
  destruct order_id, sale_price; cbv zeta;
    (eexists; split; [vm_compute; reflexivity|]); vm_compute; repeat split; reflexivity.
Qed.

(** X7. Load, then build.  When every file loads on a server that refuses
    nothing, the catalog is in step with the tables, no view reads the
    tables concerned, and the last file that went to [order_items] has a
    header cell that normalizes to [created_at], [build_kpi_views] run on
    the loaded store returns and leaves kpi_daily in the store, built on
    [order_items], with the sum of prices as revenue exactly when that
    header has [sale_price] and the count of distinct orders exactly when
    it has [order_id]. *)
Theorem load_then_build (files : csv_files) (paths : list string) (st : store)
    (header : list string) :
  (forall sql, rejects st sql = false) ->
  catalog_wf st ->
  Forall (fun path => unread st (table_of path)) paths ->
  Forall (loads files (rejects st)) paths ->
  latest files paths "order_items" = Some header ->
  "created_at" ∈ header ->
  let loaded := db (snd (load_csvs_to_postgres files paths st)) in
  fst (run loaded) = Returned "Views created: analytics.kpi_daily (and analytics.category_daily if columns exist)."
  /\ exists sql body,
       trace (snd (run loaded)) !! 3%nat = Some sql
       /\ Sql.parse_script sql
          = Some [DropViewIfExists "analytics.kpi_daily"; CreateView "analytics.kpi_daily" body]
       /\ views (db (snd (run loaded))) !! "analytics.kpi_daily" = Some body
       /\ contains_all
            ["DATE(order_items.created_at::timestamp) AS order_date,";
             "FROM raw.order_items AS order_items"] body = true
       /\ PyStr.contains "SUM(COALESCE(order_items.sale_price::numeric, 0)) AS revenue,"
            body
          = bool_decide ("sale_price" ∈ header)
       /\ PyStr.contains "COUNT(*)::numeric AS revenue," body
          = negb (bool_decide ("sale_price" ∈ header))
       /\ PyStr.contains "COUNT(DISTINCT order_items.order_id) AS orders," body
          = bool_decide ("order_id" ∈ header).
Proof.
  intros Haccept Hwf Hunread Hall Hlatest Hin loaded.
  destruct (load_csvs_done files paths st Hunread Hall) as (_ & Hdb & _).
  fold loaded in Hdb.
  assert (Hwf' : catalog_wf loaded) by (rewrite Hdb; now apply catalog_wf_loaded).
  assert (Hcols : columns_of loaded "raw" "order_items" = header).
  { now rewrite Hdb, columns_of_loaded, Hlatest. }
  assert (Hrej : forall sql, rejects loaded sql = false).
  { intros sql. rewrite Hdb, rejects_loaded. apply Haccept. }
  assert (Hoi : forall x, has x (oi_of loaded) = bool_decide (x ∈ header)).
  { intros x. unfold has, oi_of. rewrite recorded_columns_of, Hcols.
    apply bool_decide_ext. apply elem_of_list_to_set. }
  assert (Hdate : has "created_at" (oi_of loaded) = true).
  { rewrite Hoi. now apply bool_decide_eq_true. }
  assert (Hdate' : "created_at" ∈ oi_of loaded) by now apply has_true.
  assert (Hret : fst (run loaded) = Returned "Views created: analytics.kpi_daily (and analytics.category_daily if columns exist).").
  { rewrite run_outcomes. unfold refuses.
    rewrite !Hrej, (kpi_daily_resolves loaded Hwf'),
      (category_daily_resolves loaded Hwf' Hdate').
    cbn [orb fst]. unfold message, dated. now rewrite Hdate. }
  split; [exact Hret|].
  change "analytics.kpi_daily" with KPI_DAILY.
  rewrite submitted_first, (installed_kpi_daily loaded _ Hret).
  unfold kpi_daily_statement. rewrite Hdate.
  unfold orders_expr, revenue_expr. rewrite !Hoi.
  destruct (kpi_daily_order_items_text (bool_decide ("order_id" ∈ header))
              (bool_decide ("sale_price" ∈ header)))
    as (body & Hparse & Hbody & Htext & Hsum & Hcount & Horders).
  eexists _, body. split; [reflexivity|]. split; [exact Hparse|].
  split; [exact Hbody|]. auto.
Qed.

Lemma load_then_build_witness :
  let loaded :=
    db (snd (load_csvs_to_postgres dated_files ["/data/order_items.csv"] undated_store)) in
  ("created_at" ∉ oi_of undated_store)
  /\ fst (run loaded) = Returned "Views created: analytics.kpi_daily (and analytics.category_daily if columns exist)."
  /\ trace (snd (run loaded)) !! 3%nat = Some "
                        DROP VIEW IF EXISTS analytics.kpi_daily;
                        CREATE VIEW analytics.kpi_daily AS
                        SELECT
                            DATE(order_items.created_at::timestamp) AS order_date,
                            COUNT(DISTINCT order_items.order_id) AS orders,
                            COUNT(*) AS items,
                            COUNT(*)::numeric AS revenue,
                            CASE WHEN COUNT(DISTINCT order_items.order_id) > 0 THEN COUNT(*)::numeric / COUNT(DISTINCT order_items.order_id) ELSE NULL END AS aov
                        FROM raw.order_items AS order_items
                        GROUP BY 1
                        ORDER BY 1;
                    ".
Proof.
  intros loaded.
  assert (Hall : Forall (loads dated_files (rejects undated_store))
                   ["/data/order_items.csv"])
    by files_load.
  assert (Hwf : catalog_wf undated_store).
  { intros schema table column Hin.
    assert (HF : Forall (fun r => (r.1.1, r.1.2) ∈ tables undated_store)
                   (columns undated_store))
      by (repeat constructor; by_evaluation).
    rewrite Forall_forall in HF. exact (HF _ Hin). }
  destruct (load_then_build dated_files ["/data/order_items.csv"] undated_store
              ["id"; "order_id"; "created_at"]
              ltac:(reflexivity) Hwf ltac:(repeat constructor; by_evaluation) Hall
              eq_refl ltac:(by_evaluation))
    as (Hret & sql & body & Hsql & _).
  split; [by_evaluation|]. split; [exact Hret|].
  fold loaded in Hsql. rewrite Hsql. f_equal.
  apply (inj Some). rewrite <- Hsql. vm_compute. reflexivity.
Defined.

(** X8. Quoting is injective: two different names never get the same
    quoted form. *)
Theorem identifier_injective (a b : string) :
  a <> b -> _identifier a <> _identifier b.
Proof.
  intros Hne Heq. apply Hne.
  assert (H : doubled a +:+ dquote +:+ "" = doubled b +:+ dquote +:+ "").
  { unfold _identifier in Heq. rewrite !replace_dquote in Heq.
    unfold dquote in Heq. rewrite !append_cons in Heq.
    injection Heq as Heq. exact Heq. }
  pose proof (body_doubled a "" I) as Ha. pose proof (body_doubled b "" I) as Hb.
  rewrite H in Ha. congruence.
Qed.

Lemma identifier_injective_witness :
  _identifier ("a" +:+ dquote) <> _identifier ("a" +:+ dquote +:+ dquote).
Proof.
  apply identifier_injective. discriminate.
Defined.

(** X9. The task reports the stem of every path, while each table is
    created under the stem in lower case with underscores for spaces: for
    an ASCII path the two are the same exactly when the stem holds no
    upper-case letter and no space. *)
Theorem reported_name_is_table_name (path : string) :
  Py.ascii_only path = true ->
  (table_of path = Py.stem path
   <-> every (fun c => negb (Py.is_upper c) && negb (is_space_char c)) (Py.stem path)
       = true).
Proof.
  intros _.
  unfold table_of. rewrite (replace_char " " "_"). generalize (Py.stem path). intros s.
  split.
  - intros Hfix.
    assert (Hupper : every (fun c => negb (Py.is_upper c)) s = true).
    { rewrite <- Hfix. apply every_substitute; [reflexivity|].
      apply (every_impl (fun c => negb (Py.is_upper c))); [|apply every_lower].
      intros c ->. reflexivity. }
    assert (Hspace : every (fun c => negb (is_space_char c)) s = true).
    { rewrite <- Hfix. apply every_substitute; [reflexivity|].
      generalize (Py.lower s). intros t.
      induction t as [|c t IH]; [reflexivity|]. cbn [every]. rewrite IH.
      unfold is_space_char. now destruct (Ascii.eqb c " "). }
    clear Hfix. induction s as [|c s IH]; [reflexivity|].
    cbn [every] in *. apply andb_true_iff in Hupper as [-> Hupper].
    apply andb_true_iff in Hspace as [-> Hspace]. now rewrite IH.
  - intros Hclean.
    rewrite lower_fixed.
    + apply substitute_absent.
      apply (every_impl _ _ _ (fun c H => proj2 (proj1 (andb_true_iff _ _) H)) Hclean).
    + apply (every_impl _ _ _ (fun c H => proj1 (proj1 (andb_true_iff _ _) H)) Hclean).
Qed.

Lemma reported_name_is_table_name_witness :
  Py.stem "/data/Order Items.csv" = "Order Items"
  /\ table_of "/data/Order Items.csv" = "order_items"
  /\ table_of "/data/order_items.csv" = Py.stem "/data/order_items.csv".
Proof.
  split; [reflexivity|]. split; [reflexivity|].
  apply (reported_name_is_table_name "/data/order_items.csv"); reflexivity.
Defined.

(** * What [build_kpi_views] leaves alone *)

(** X10. Whatever happens in a run of [build_kpi_views], also when it
    raises, the tables and the catalog of the store are as before and so is
    every view other than kpi_daily and category_daily; a later run
    therefore reads the same column sets. *)
Theorem build_touches_two_views_only (st : store) :
  let final := db (snd (run st)) in
  tables final = tables st
  /\ columns final = columns st
  /\ (forall name, name <> KPI_DAILY -> name <> CATEGORY_DAILY ->
        views final !! name = views st !! name)
  /\ (oi_of final, o_of final, p_of final) = (oi_of st, o_of st, p_of st).
Proof.
  intros final. subst final. rewrite run_outcomes.
  destruct (refuses st _); [|destruct (refuses st _)]; cbn [snd db];
    (split; [reflexivity|]); (split; [reflexivity|]); (split; [|reflexivity]);
    intros name Hk Hc; cbn [views with_views];
    rewrite ?lookup_replace_view; repeat case_decide; congruence.
Qed.

(** * Bootstrapping the database *)

Section Bootstrap.

Variable ANALYTICS_DB : string.


Lemma next_completed {A B} (m : Admin A) (k : A -> Admin B) s a s' :
  m s = (Completed a, s') -> next m k s = k a s'.
Proof. intros H. unfold next. now rewrite H. Qed.

Lemma next_aborted {A B} (m : Admin A) (k : A -> Admin B) s e s' :
  m s = (Aborted e, s') -> next m k s = (Aborted e, s').
Proof. intros H. unfold next. now rewrite H. Qed.





End Bootstrap.



(** * Loading again after the views have been built *)

Section Rerun.

Lemma drop_refused st table name body :
  table <> "" ->
  Pg.fits table ->
  views st !! name = Some body ->
  depends_on body "raw" table = true ->
  answer_table st (drop_table_sql table) = None.
Proof.
  intros Htable Hfits Hview Hreads. unfold answer_table.
  destruct (rejects st _); [reflexivity|].
  rewrite (parse_drop_table_sql table Htable).
  cbn [mbind option_bind truncated table_effect].
  rewrite truncate_raw, (truncate_fits table Hfits).
  rewrite decide_False; [reflexivity|].
  intros Hall. specialize (Hall name body Hview). cbn beta in Hall. congruence.
Qed.

Lemma kpi_daily_reads_order_items oi o :
  has "created_at" oi = true ->
  exists body,
    view_body (kpi_daily_statement oi o) = Some body
    /\ depends_on body "raw" "order_items" = true.
Proof.
  intros H. unfold kpi_daily_statement. rewrite H.
  unfold orders_expr, revenue_expr.
  destruct (has "order_id" oi), (has "sale_price" oi);
    (eexists; split; [vm_compute; reflexivity|]); vm_compute; reflexivity.
Qed.

Lemma rejects_run st : rejects (db (snd (run st))) = rejects st.
Proof.
  rewrite run_outcomes. now destruct (refuses st _); [|destruct (refuses st _)].
Qed.

End Rerun.

(** X12. The pipeline cannot simply be run again.  Once [build_kpi_views]
    has returned with kpi_daily built on [order_items], a new load goes
    through the files before the one for [order_items] and then raises at
    its DROP TABLE: the view reads the table and the statement has no
    CASCADE.  With the transaction rolled back the store is as the views
    task left it: no file of the new load is in it. *)
Theorem reload_refused_after_build (st : store) (msg : string) (files : csv_files)
    (good : list string) (path : string) (rest : list string) :
  fst (run st) = Returned msg ->
  "created_at" ∈ oi_of st ->
  rejects st CREATE_SCHEMA_RAW = false ->
  let built := db (snd (run st)) in
  Forall (fun p => unread built (table_of p)) good ->
  Forall (loads files (rejects st)) good ->
  plain files path ->
  table_of path = "order_items" ->
  is_Some (header_of files path) ->
  let again := load_csvs_to_postgres files (good ++ path :: rest) built in
  fst again = Failed (ServerError (drop_table_sql "order_items"))
  /\ drop_table_sql "order_items"
     = "DROP TABLE IF EXISTS raw." +:+ dquote +:+ "order_items" +:+ dquote +:+ ";"
  /\ trace (snd again)
     = (load_trace files good ++ [CREATE_SCHEMA_RAW; drop_table_sql "order_items"])%list
  /\ db (snd again) = built.
Proof.
  intros Hret Hdate Hschema built Hunread Hgood _ Htable [header Hheader] again.
  subst again.
  assert (Hrej : rejects built = rejects st) by apply rejects_run.
  apply has_true in Hdate.
  destruct (kpi_daily_reads_order_items (oi_of st) (o_of st) Hdate)
    as (body & Hbody & Hreads).
  assert (Hview : views built !! KPI_DAILY = Some body).
  { subst built. now rewrite (installed_kpi_daily st msg Hret). }
  rewrite <- Hrej in Hgood.
  destruct (load_csvs_stops files good (path :: rest) built
              (ServerError (drop_table_sql "order_items"))
              (fun c => {| db := db c; fetched := [];
                           trace := (trace c ++ [CREATE_SCHEMA_RAW;
                                                 drop_table_sql "order_items"])%list |})
              Hunread Hgood)
    as (c & _ & Htrace & ->).
  { intros c Hdb.
    destruct (header_of_read files path header c Hheader) as [Hread _].
    cbn [load_each]. rewrite (and_then_done _ _ _ _ _ Hread), Htable.
    erewrite and_then_failed; [reflexivity|].
    unfold create_raw_table_from_header.
    rewrite (and_then_done _ _ _ _ _
               (submit_accepted c CREATE_SCHEMA_RAW (TableSql.CreateSchema "raw") (db c)
                  ltac:(rewrite Hdb, rejects_loaded, Hrej; exact Hschema) eq_refl eq_refl)).
    erewrite and_then_failed.
    2:{ apply submit_refused. cbn [db].
        apply (drop_refused _ "order_items" KPI_DAILY body);
          [discriminate|unfold Pg.fits; cbn; lia| |exact Hreads].
        now rewrite Hdb, views_loaded. }
    cbn [db fetched trace]. now rewrite <- app_assoc. }
  cbn [fst snd db trace]. now rewrite Htrace.
Qed.

Lemma reload_refused_after_build_witness :
  let built := db (snd (run full_store)) in
  let again := load_csvs_to_postgres dated_files ["/data/order_items.csv"] built in
  fst (run full_store) = Returned "Views created: analytics.kpi_daily (and analytics.category_daily if columns exist)."
  /\ fst again = Failed (ServerError (drop_table_sql "order_items"))
  /\ db (snd again) = built.
Proof.
  intros built again.
  assert (Hret : fst (run full_store) = Returned "Views created: analytics.kpi_daily (and analytics.category_daily if columns exist).") by (vm_compute; reflexivity).
  destruct (reload_refused_after_build full_store _ dated_files []
              "/data/order_items.csv" [] Hret ltac:(by_evaluation) eq_refl
              ltac:(constructor) ltac:(constructor)
              ltac:(split; [reflexivity|vm_compute; repeat constructor]) eq_refl
              ltac:(eexists; vm_compute; reflexivity))
    as (Hfail & _ & _ & Hdb).
  split; [exact Hret|]. split; [exact Hfail|exact Hdb].
Defined.

(** X13. Before any view reads the tables the load can be repeated.  When
    every file loads (ASCII names, none longer than the server keeps) and
    no view reads the tables concerned, a second load of the same files
    returns as the first did, submits the same four statements per file,
    and leaves the same tables, the same columns for every table and the
    same views as the first load left. *)
Theorem load_repeatable (files : csv_files) (paths : list string) (st : store) :
  Forall (fun path => unread st (table_of path)) paths ->
  Forall (loads files (rejects st)) paths ->
  let first := load_csvs_to_postgres files paths st in
  let again := load_csvs_to_postgres files paths (db (snd first)) in
  fst again = fst first
  /\ fst again = Done (Py.stem <$> paths)
  /\ trace (snd again) = trace (snd first)
  /\ length (trace (snd again)) = 4 * length paths
  /\ tables (db (snd again)) = tables (db (snd first))
  /\ (forall table,
        columns_of (db (snd again)) "raw" table
        = columns_of (db (snd first)) "raw" table)
  /\ views (db (snd again)) = views (db (snd first)).
Proof.
  intros Hunread Hall first again. subst again first.
  destruct (load_csvs_done files paths st Hunread Hall) as (Hfst & Hdb & Htrace).
  rewrite Hfst, Hdb, Htrace.
  assert (Hunread' : Forall (fun path => unread (loaded_store files paths st)
                                           (table_of path)) paths).
  { unfold unread. rewrite views_loaded. exact Hunread. }
  assert (Hall' : Forall (loads files (rejects (loaded_store files paths st))) paths).
  { rewrite rejects_loaded. exact Hall. }
  destruct (load_csvs_done files paths _ Hunread' Hall') as (Hfst' & Hdb' & Htrace').
  rewrite Hfst', Hdb', Htrace'.
  split; [reflexivity|]. split; [reflexivity|]. split; [reflexivity|].
  split; [exact (load_trace_length files (rejects st) paths Hall)|].
  split; [|split].
  - apply set_eq. intros x. rewrite !tables_loaded. tauto.
  - intros table. rewrite !columns_of_loaded.
    now destruct (latest files paths table).
  - apply views_loaded.
Qed.

Lemma load_repeatable_witness :
  let paths := ["/data/Orders.csv"; "/data/orders.csv"] in
  let first := load_csvs_to_postgres colliding_files paths undated_store in
  let again := load_csvs_to_postgres colliding_files paths (db (snd first)) in
  fst again = Done ["Orders"; "orders"]
  /\ length (trace (snd again)) = 8
  /\ tables (db (snd again)) = tables (db (snd first)).
Proof.
  intros paths first again.
  assert (Hall : Forall (loads colliding_files (rejects undated_store)) paths)
    by files_load.
  destruct (load_repeatable colliding_files paths undated_store
              ltac:(repeat constructor; by_evaluation) Hall)
    as (_ & Hret & _ & Hlen & Htables & _).
  split; [exact Hret|]. split; [exact Hlen|exact Htables].
Defined.
